(** * goaws: the request signer (context.go) and its callers for SQS
    (sqs.go), SNS (sns.go) and Simple Pay (simplepay.go)

    A shallow embedding of the Go code of the repository.  Go strings are
    byte sequences and are modelled by [string] (a list of [ascii], one per
    byte); [url.Values] (a [map[string][]string]) is a [gmap string (list
    string)]; a panic is the [Panic] constructor of [result].

    The functions of Go's standard library that the code calls ([strings],
    [sort], [net/url], [time], [strconv], [crypto/hmac], [crypto/sha256],
    [encoding/base64]) are modelled after the library's sources
    (net/url as of Go 1.17 and later). *)

From Stdlib Require Import ZArith NArith Ascii String List Lia DecimalString.
From stdpp Require Import base option list sorting gmap strings.

Local Open Scope Z_scope.

(** ** Results of code that can panic *)

Inductive result (A : Type) : Type :=
| Ok (a : A)
| Panic (msg : string).
Arguments Ok {A} a.
Arguments Panic {A} msg.

Global Instance result_ret : MRet result := fun A a => Ok a.
Global Instance result_bind : MBind result := fun A B f x =>
  match x with
  | Ok a => f a
  | Panic msg => Panic msg
  end.

(** ** Package strings *)

Module Strings.

(** [strings.Split(s, sep)] for a one-byte separator: the substrings
    between the separators; [Split "" sep] is the one-element list [""]. *)
Fixpoint Split (s : string) (sep : ascii) : list string :=
  match s with
  | EmptyString => [EmptyString]
  | String c s' =>
      if Ascii.eqb c sep then EmptyString :: Split s' sep
      else match Split s' sep with
           | x :: xs => String c x :: xs
           | [] => [String c EmptyString]
           end
  end.

(** [strings.Join(elems, sep)]. *)
Fixpoint Join (elems : list string) (sep : string) : string :=
  match elems with
  | [] => ""
  | [x] => x
  | x :: xs => x +:+ sep +:+ Join xs sep
  end.

(** [strings.Replace(s, old, new, -1)] for a one-byte [old]: every
    occurrence of [old] is replaced. *)
Fixpoint Replace (s : string) (old : ascii) (new : string) : string :=
  match s with
  | EmptyString => ""
  | String c s' =>
      if Ascii.eqb c old then new +:+ Replace s' old new
      else String c (Replace s' old new)
  end.

(** [strings.Cut(s, sep)] for a one-byte separator: the text before and
    after the first separator, and whether there was one. *)
Fixpoint Cut (s : string) (sep : ascii) : string * string * bool :=
  match s with
  | EmptyString => ("", "", false)
  | String c s' =>
      if Ascii.eqb c sep then ("", s', true)
      else let '(before, after, found) := Cut s' sep in
           (String c before, after, found)
  end.

(** [strings.Contains(s, substr)] for a one-byte [substr]. *)
Fixpoint Contains (s : string) (c : ascii) : bool :=
  match s with
  | EmptyString => false
  | String c' s' => Ascii.eqb c' c || Contains s' c
  end.

(** [strings.HasPrefix(s, prefix)] *)
Fixpoint HasPrefix (s prefix : string) : bool :=
  match prefix, s with
  | EmptyString, _ => true
  | String c prefix', String d s' => Ascii.eqb d c && HasPrefix s' prefix'
  | String _ _, EmptyString => false
  end.

End Strings.

(** ** Package sort *)

Module Sort.

(** [sort.Strings(x)]: increasing order of Go's [<] on strings, the
    bytewise lexicographic order [String.le].  The order is total and
    antisymmetric, so the sorted list is unique ([Strings_unique]
    below) and the sorting algorithm does not matter. *)
Definition Strings (x : list string) : list string :=
  merge_sort String.le x.

End Sort.

(** ** Package net/url *)

Module Url.

Definition byte_in (lo hi c : ascii) : bool :=
  (N_of_ascii lo <=? N_of_ascii c)%N && (N_of_ascii c <=? N_of_ascii hi)%N.

(** [shouldEscape(c, encodeQueryComponent)]: letters, digits and the four
    marks [-_.~] are kept; every other byte, the reserved ones included,
    is escaped. *)
Definition shouldEscape (c : ascii) : bool :=
  if byte_in "a" "z" c || byte_in "A" "Z" c || byte_in "0" "9" c then false
  else if Ascii.eqb c "-" || Ascii.eqb c "_" || Ascii.eqb c "."
          || Ascii.eqb c "~" then false
  else true.

Definition upperhex : string := "0123456789ABCDEF".

(** [upperhex[i]] *)
Definition hexdigit (i : N) : ascii :=
  default "0"%char (String.get (N.to_nat i) upperhex).

(** One byte of [escape(s, encodeQueryComponent)]: a space becomes [+], a
    byte to escape becomes [%] and [upperhex[c>>4]], [upperhex[c&15]]. *)
Definition escapeByte (c : ascii) : string :=
  if Ascii.eqb c " " then "+"
  else if shouldEscape c then
    String "%" (String (hexdigit (N.shiftr (N_of_ascii c) 4))
               (String (hexdigit (N.land (N_of_ascii c) 15)) ""))
  else String c "".

(** [url.QueryEscape(s)] *)
Fixpoint QueryEscape (s : string) : string :=
  match s with
  | EmptyString => ""
  | String c s' => escapeByte c +:+ QueryEscape s'
  end.

Definition ishex (c : ascii) : bool :=
  byte_in "0" "9" c || byte_in "a" "f" c || byte_in "A" "F" c.

Definition unhex (c : ascii) : N :=
  if byte_in "0" "9" c then N_of_ascii c - N_of_ascii "0"
  else if byte_in "a" "f" c then N_of_ascii c - N_of_ascii "a" + 10
  else if byte_in "A" "F" c then N_of_ascii c - N_of_ascii "A" + 10
  else 0.

(** [url.QueryUnescape(s)]: [None] is the [EscapeError] of a [%] that is
    not followed by two hex digits.  Go validates the whole string in a
    first loop and decodes in a second one; one pass gives the same
    result. *)
Fixpoint QueryUnescape (s : string) : option string :=
  match s with
  | EmptyString => Some ""
  | String "%" (String a (String b rest)) =>
      if ishex a && ishex b then
        String (ascii_of_N (N.lor (N.shiftl (unhex a) 4) (unhex b)))
          <$> QueryUnescape rest
      else None
  | String "%" _ => None
  | String "+" rest => String " " <$> QueryUnescape rest
  | String c rest => String c <$> QueryUnescape rest
  end.

(** [url.Values]: [map[string][]string]. *)
Abbreviation Values := (gmap string (list string)).

(** [v[key]], [nil] for an absent key. *)
Definition index (v : Values) (key : string) : list string :=
  default [] (v !! key).

(** [v.Set(key, value)]: [v[key] = []string{value}]. *)
Definition Set_ (v : Values) (key value : string) : Values :=
  <[key := [value]]> v.

(** [v.Add(key, value)]: [v[key] = append(v[key], value)]. *)
Definition Add (v : Values) (key value : string) : Values :=
  <[key := index v key ++ [value]]> v.

(** The keys of [v] in increasing order: [slices.Sorted(maps.Keys(v))]. *)
Definition sortedKeys (v : Values) : list string :=
  Sort.Strings ((map_to_list v).*1).

(** The [key=value] strings that [Encode] writes for one key. *)
Definition encodeKey (v : Values) (k : string) : list string :=
  (fun x => QueryEscape k +:+ "=" +:+ QueryEscape x) <$> index v k.

(** [v.Encode()]: for each key in sorted order and each of its values in
    order, [QueryEscape(k) = QueryEscape(value)], with a [&] before every
    pair but the first. *)
Definition Encode (v : Values) : string :=
  Strings.Join (sortedKeys v ≫= encodeKey v) "&".

(** One iteration of the loop of [parseQuery], on the segment [key] cut
    off at the next [&]; a segment with a [;], an empty segment and a
    segment whose key or value does not unescape are skipped. *)
Definition parseSegment (m : Values) (key : string) : Values :=
  if Strings.Contains key ";" then m
  else if String.eqb key "" then m
  else
    let '(key, value, _) := Strings.Cut key "=" in
    match QueryUnescape key with
    | None => m
    | Some key =>
        match QueryUnescape value with
        | None => m
        | Some value => <[key := index m key ++ [value]]> m
        end
    end.

(** [parseQuery(m, query)], the map it builds: the loop
    [for query != "" { key, query, _ = strings.Cut(query, "&") ... }]
    visits the segments of [query] between the [&]s.  The error it also
    returns is dropped by [URL.Query], its only caller here. *)
Definition parseQuery (m : Values) (query : string) : Values :=
  foldl parseSegment m (Strings.Split query "&").

(** [url.ParseQuery(query)], the [Values] it returns. *)
Definition ParseQuery (query : string) : Values := parseQuery ∅ query.

(** The fields of [url.URL] that the package reads or writes. *)
Record URL : Type := mkURL {
  Host : string;
  Path : string;
  RawQuery : string
}.

(** [u.Query()]: [v, _ := ParseQuery(u.RawQuery)]. *)
Definition Query (u : URL) : Values := ParseQuery (RawQuery u).

End Url.

(** ** Bytes of a string *)

Definition bytes (s : string) : list Z :=
  map (fun c => Z.of_N (N_of_ascii c)) (list_ascii_of_string s).

(** ** Package crypto/sha256 *)

Module Sha256.

(** [uint32] arithmetic: words are integers in [0, 2^32). *)
Definition add32 (x y : Z) : Z := (x + y) mod 2 ^ 32.

(** [bits.RotateLeft32(x, -k)] *)
Definition rotr (x k : Z) : Z :=
  Z.lor (Z.shiftr x k) (Z.shiftl x (32 - k) mod 2 ^ 32).

(** [^x] on a [uint32] *)
Definition not32 (x : Z) : Z := Z.lxor x (2 ^ 32 - 1).

(** The first 64 primes. *)
Definition primes : list Z :=
  [ 2; 3; 5; 7; 11; 13; 17; 19; 23; 29; 31; 37; 41; 43; 47; 53;
    59; 61; 67; 71; 73; 79; 83; 89; 97; 101; 103; 107; 109; 113; 127; 131;
    137; 139; 149; 151; 157; 163; 167; 173; 179; 181; 191; 193; 197; 199;
    211; 223; 227; 229; 233; 239; 241; 251; 257; 263; 269; 271; 277; 281;
    283; 293; 307; 311 ].

(** The integer cube root of [n], bit by bit from bit [k] down. *)
Fixpoint cbrt_bits (k : nat) (n x : Z) : Z :=
  match k with
  | O => x
  | S k' =>
      let y := x + 2 ^ Z.of_nat k' in
      cbrt_bits k' n (if y * y * y <=? n then y else x)
  end.

Definition cbrt (n : Z) : Z := cbrt_bits 40 n 0.

(** The table [_K] of sha256block.go: the first 32 bits of the fractional
    parts of the cube roots of the first 64 primes, from [0x428a2f98] for
    2 to [0xc67178f2] for 311. *)
Definition _K : list Z :=
  Eval vm_compute in map (fun p => cbrt (p * 2 ^ 96) mod 2 ^ 32) primes.

(** The initial state [init0 .. init7] of sha256.go: the first 32 bits of
    the fractional parts of the square roots of the first 8 primes, from
    [0x6a09e667] for 2 to [0x5be0cd19] for 19. *)
Definition init : list Z :=
  Eval vm_compute in map (fun p => Z.sqrt (p * 2 ^ 64) mod 2 ^ 32)
                         (firstn 8 primes).

(** [w[i] = uint32(p[j])<<24 | uint32(p[j+1])<<16 | uint32(p[j+2])<<8
    | uint32(p[j+3])] for the sixteen words of a chunk. *)
Fixpoint words (p : list Z) : list Z :=
  match p with
  | b0 :: b1 :: b2 :: b3 :: p' =>
      Z.lor (Z.lor (Z.lor (Z.shiftl b0 24) (Z.shiftl b1 16)) (Z.shiftl b2 8)) b3
      :: words p'
  | _ => []
  end.

(** The loop [for i := 16; i < 64; i++] that extends the schedule, run
    [n] times on the words [w] computed so far. *)
Fixpoint extend (n : nat) (w : list Z) : list Z :=
  match n with
  | O => w
  | S n' =>
      let i := length w in
      let v1 := nth (i - 2) w 0 in
      let t1 := Z.lxor (Z.lxor (rotr v1 17) (rotr v1 19)) (Z.shiftr v1 10) in
      let v2 := nth (i - 15) w 0 in
      let t2 := Z.lxor (Z.lxor (rotr v2 7) (rotr v2 18)) (Z.shiftr v2 3) in
      extend n'
        (w ++ [add32 (add32 (add32 t1 (nth (i - 7) w 0)) t2) (nth (i - 16) w 0)])
  end.

(** The eight working variables [a .. h]. *)
Definition regs : Type := (Z * Z * Z * Z * Z * Z * Z * Z)%type.

(** One iteration of the loop [for i := 0; i < 64; i++]. *)
Definition round (r : regs) (kw : Z * Z) : regs :=
  let '(a, b, c, d, e, f, g, h) := r in
  let t1 :=
    add32 (add32 (add32 (add32 h
      (Z.lxor (Z.lxor (rotr e 6) (rotr e 11)) (rotr e 25)))
      (Z.lxor (Z.land e f) (Z.land (not32 e) g))) (fst kw)) (snd kw) in
  let t2 :=
    add32 (Z.lxor (Z.lxor (rotr a 2) (rotr a 13)) (rotr a 22))
          (Z.lxor (Z.lxor (Z.land a b) (Z.land a c)) (Z.land b c)) in
  (add32 t1 t2, a, b, c, add32 d t1, e, f, g).

(** [block] on one 64-byte chunk [p], from the state [h0 .. h7]. *)
Definition block (hs : list Z) (p : list Z) : list Z :=
  match hs with
  | [h0; h1; h2; h3; h4; h5; h6; h7] =>
      let w := extend 48 (words p) in
      let '(a, b, c, d, e, f, g, h) :=
        fold_left round (combine _K w) (h0, h1, h2, h3, h4, h5, h6, h7) in
      [add32 h0 a; add32 h1 b; add32 h2 c; add32 h3 d;
       add32 h4 e; add32 h5 f; add32 h6 g; add32 h7 h]
  | _ => hs
  end.

(** The chunks of a padded message, [n] of them. *)
Fixpoint blocks (n : nat) (hs : list Z) (p : list Z) : list Z :=
  match n with
  | O => hs
  | S n' => blocks n' (block hs (firstn 64 p)) (skipn 64 p)
  end.

(** The [k] low bytes of [x], most significant first. *)
Fixpoint bigEndian (k : nat) (x : Z) : list Z :=
  match k with
  | O => []
  | S k' => Z.shiftr x (8 * Z.of_nat k') mod 256 :: bigEndian k' x
  end.

(** The padding of [checkSum]: a byte 0x80, zeros up to 56 mod 64, and
    the length in bits as a big-endian [uint64]. *)
Definition pad (msg : list Z) : list Z :=
  let len := Z.of_nat (length msg) in
  let zeros := Z.to_nat ((55 - len) mod 64) in
  msg ++ [0x80] ++ repeat 0 zeros ++ bigEndian 8 (Z.shiftl len 3 mod 2 ^ 64).

(** [sha256.Sum256(msg)] *)
Definition Sum256 (msg : list Z) : list Z :=
  let p := pad msg in
  flat_map (bigEndian 4) (blocks (length p / 64) init p).

End Sha256.

(** ** Package crypto/hmac *)

Module Hmac.

Definition blocksize : nat := 64.

(** [hmac.New(sha256.New, key)] followed by [Write(msg)] and [Sum(nil)]:
    a key longer than a block is hashed first, then padded with zeros. *)
Definition Sum (key msg : list Z) : list Z :=
  let key := if (blocksize <? length key)%nat then Sha256.Sum256 key else key in
  let key := key ++ repeat 0 (blocksize - length key) in
  let ipad := map (Z.lxor 0x36) key in
  let opad := map (Z.lxor 0x5c) key in
  Sha256.Sum256 (opad ++ Sha256.Sum256 (ipad ++ msg)).

End Hmac.

(** ** Package encoding/base64 *)

Module Base64.

Definition encodeStd : string :=
  "ABCDEFGHIJKLMNOPQRSTUVWXYZabcdefghijklmnopqrstuvwxyz0123456789+/".

Definition enc (i : Z) : ascii :=
  default "="%char (String.get (Z.to_nat i) encodeStd).

(** [base64.StdEncoding.EncodeToString(src)]: three bytes give four
    characters; a remainder of one or two bytes is padded with [=]. *)
Fixpoint EncodeToString (src : list Z) : string :=
  match src with
  | [] => ""
  | [b0] =>
      let val := Z.shiftl b0 16 in
      String (enc (Z.land (Z.shiftr val 18) 0x3F))
        (String (enc (Z.land (Z.shiftr val 12) 0x3F)) "==")
  | [b0; b1] =>
      let val := Z.lor (Z.shiftl b0 16) (Z.shiftl b1 8) in
      String (enc (Z.land (Z.shiftr val 18) 0x3F))
        (String (enc (Z.land (Z.shiftr val 12) 0x3F))
          (String (enc (Z.land (Z.shiftr val 6) 0x3F)) "="))
  | b0 :: b1 :: b2 :: src' =>
      let val := Z.lor (Z.lor (Z.shiftl b0 16) (Z.shiftl b1 8)) b2 in
      String (enc (Z.land (Z.shiftr val 18) 0x3F))
        (String (enc (Z.land (Z.shiftr val 12) 0x3F))
          (String (enc (Z.land (Z.shiftr val 6) 0x3F))
            (String (enc (Z.land val 0x3F)) (EncodeToString src'))))
  end.

End Base64.

(** ** Package strconv *)

Module Strconv.

(** [strconv.FormatInt(i, 10)] *)
Definition FormatInt (i : Z) : string := NilZero.string_of_int (Z.to_int i).

End Strconv.

(** ** Package time *)

Module Time.

(** A [time.Time] in UTC, by its calendar fields. *)
Record Time : Type := mkTime {
  year : Z;
  month : Z;
  day : Z;
  hour : Z;
  minute : Z;
  second : Z
}.

(** [appendInt(b, x, width)]: a sign for a negative [x], then the decimal
    digits of its magnitude, padded with zeros to [width]. *)
Definition appendInt (x : Z) (width : nat) : string :=
  let digits := NilZero.string_of_uint (N.to_uint (Z.to_N (Z.abs x))) in
  (if x <? 0 then "-" else "")
    +:+ string_of_list_ascii (repeat "0"%char (width - String.length digits))
    +:+ digits.

(** [t.Format(time.RFC3339)] for a time in UTC: the layout
    [2006-01-02T15:04:05Z07:00], whose zone is written [Z]. *)
Definition FormatRFC3339 (t : Time) : string :=
  appendInt (year t) 4 +:+ "-" +:+ appendInt (month t) 2 +:+ "-"
    +:+ appendInt (day t) 2 +:+ "T" +:+ appendInt (hour t) 2 +:+ ":"
    +:+ appendInt (minute t) 2 +:+ ":" +:+ appendInt (second t) 2 +:+ "Z".

(** [time.Duration]: an [int64] count of nanoseconds. *)
Definition Duration : Type := Z.

Definition Second : Duration := 1000000000.

(** [int(d.Seconds())].  [d.Seconds()] is the [float64]
    [float64(d / Second) + float64(d % Second) / 1e9], with Go's truncated
    division, and the conversion to [int] (64 bits) drops the fraction.
    Below [2^24] whole seconds the sum stays strictly between
    [d / Second] and the next integer away from zero, because there the
    [float64]s are at most [2^-29] apart and the fraction is at most
    [0.999999999]: the result is [d / Second].  From [2^24] whole seconds
    on, the sum can round to the next integer away from zero: [away] says
    whether it does in this call. *)
Definition intSeconds (away : bool) (d : Duration) : Z :=
  let sec := Z.quot d Second in
  if away && (2 ^ 24 <=? Z.abs sec) then sec + Z.sgn sec else sec.

End Time.

(** ** Package net/http *)

Module Http.

(** The fields of [http.Request] that the package reads or writes. *)
Record Request : Type := mkRequest {
  Method : string;
  URL : Url.URL
}.

End Http.

(** * Package goaws *)

(** ** context.go *)

Import Url Http.

(** A context object holds the credentials needed to sign AWS requests. *)
Record Context : Type := mkContext {
  keyId : string;
  key : string
}.

Definition NewContext (accessKeyId accessKey : string) : Context :=
  {| keyId := accessKeyId; key := accessKey |}.

(** [type signingContext int] *)
Definition signingContext : Type := Z.

Definition defaultHTTPSigningContext : signingContext := 0.
Definition purchaseSigningContext : signingContext := 1.

(** [sc.getValues(c, r)]; [now] is the value of [time.Now().UTC()]. *)
Definition getValues (now : Time.Time) (sc : signingContext) (c : Context)
    (r : Request) : result Values :=
  let params := Query (URL r) in
  if sc =? defaultHTTPSigningContext then
    let params := Set_ params "Timestamp" (Time.FormatRFC3339 now) in
    let params := Set_ params "AWSAccessKeyId" (keyId c) in
    let params := Set_ params "SignatureVersion" "2" in
    let params := Set_ params "SignatureMethod" "HmacSHA256" in
    Ok params
  else if sc =? purchaseSigningContext then
    let params := Set_ params "accessKey" (keyId c) in
    let params := Set_ params "signatureVersion" "2" in
    let params := Set_ params "signatureMethod" "HmacSHA256" in
    Ok params
  else Panic "Unknown signing context".

(** [sc.addSignature(v, signature)] *)
Definition addSignature (sc : signingContext) (v : Values)
    (signature : string) : result Values :=
  if sc =? defaultHTTPSigningContext then Ok (Set_ v "Signature" signature)
  else if sc =? purchaseSigningContext then Ok (Set_ v "signature" signature)
  else Panic "Unknown signing context".

(** The newline written by [WriteRune] *)
Definition newline : string := String "010" "".

(** Lines 103 to 108 of [sign]: the sorted and corrected query string. *)
Definition queryString (params : Values) : string :=
  let values := Strings.Split (Encode params) "&" in
  let values := Sort.Strings values in
  let queryString := Strings.Join values "&" in
  let queryString := Strings.Replace queryString "+" "%20" in
  let queryString := Strings.Replace queryString "(" "%28" in
  let queryString := Strings.Replace queryString ")" "%29" in
  queryString.

(** Lines 110 to 117 of [sign]: the contents of the buffer [signString]. *)
Definition signString (r : Request) (queryString : string) : string :=
  Method r +:+ newline +:+ Host (URL r) +:+ newline +:+ Path (URL r)
    +:+ newline +:+ queryString.

(** Lines 119 to 122 of [sign]: the base64 text of the HMAC-SHA256 of
    [signString] under the key of the context. *)
Definition signature (c : Context) (signString : string) : string :=
  Base64.EncodeToString (Hmac.Sum (bytes (key c)) (bytes signString)).

(** [c.sign(sc, r)]: the request after the call, which differs from [r]
    in [r.URL.RawQuery]. *)
Definition sign (now : Time.Time) (c : Context) (sc : signingContext)
    (r : Request) : result Request :=
  params ← getValues now sc c r;
  let signString := signString r (queryString params) in
  let signature := signature c signString in
  params ← addSignature sc params signature;
  Ok {| Method := Method r;
        URL := {| Host := Host (URL r); Path := Path (URL r);
                  RawQuery := Encode params |} |}.

(** [c.SignRequest(r)] *)
Definition SignRequest (now : Time.Time) (c : Context) (r : Request)
    : result Request :=
  sign now c defaultHTTPSigningContext r.

(** ** sqs.go *)

(** A context holding the data for an SQS queue. *)
Record Queue : Type := mkQueue {
  url : string
}.

Definition NewQueue (url : string) : Queue := {| url := url |}.

Record SQSMessage : Type := mkSQSMessage {
  ReceiptHandle : string;
  Body : string
}.

(** An element of [response.ReceiveMessageResult.Message]. *)
Record ResponseMessage : Type := mkResponseMessage {
  rMessageId : string;
  rReceiptHandle : string;
  rMD5OfBody : string;
  rBody : string;
  rAttribute : list (string * string)
}.

(** What a call does to the world outside: it signs a request (and reads
    the clock for it), it sends a request. *)
Inductive Effect : Type :=
| Signed (r : Request)
| Sent (r : Request).

(** The value of a call that returns [(messages, err)], after the effects
    it had; a panic takes the place of the returned pair. *)
Definition Outcome : Type :=
  (list Effect * result (list SQSMessage * option string))%type.

Section ServiceCallers.

(** The world of a call: the clock, the rounding of [wait.Seconds()]
    (see [Time.intSeconds]), [http.NewRequest(method, url, nil)],
    [http.DefaultClient.Do(req)] giving the body of the response, and
    [xml.NewDecoder(body).Decode(&response)]; [inl] is the error. *)
Variable now : Time.Time.
Variable away : bool.
Variable NewRequest : string -> string -> string + Request.
Variable Do : Request -> string + string.
Variable Decode : string -> string + list ResponseMessage.

(** [q.ReceiveMessages(c, max, wait)] *)
Definition ReceiveMessages (q : Queue) (c : Context) (max : Z)
    (wait : Time.Duration) : Outcome :=
  let seconds := Time.intSeconds away wait in
  if (seconds <? 0) || (20 <? seconds) then
    ([], Ok ([], Some ("Wait time must be no longer than 20 seconds. Got: "
                         +:+ Strconv.FormatInt seconds)))
  else if (max <? 0) || (10 <? max) then
    ([], Ok ([], Some ("Max messages must be no larger than 10. Got: "
                         +:+ Strconv.FormatInt max)))
  else
    let params : Values := ∅ in
    let params := Set_ params "Action" "ReceiveMessage" in
    let params := Set_ params "MaxNumberOfMessages" (Strconv.FormatInt max) in
    let params := Set_ params "VisibilityTimeout" "5" in
    let params := Set_ params "WaitTimeSeconds" (Strconv.FormatInt seconds) in
    let params := Set_ params "Version" "2009-02-01" in
    match NewRequest "GET" (url q +:+ "/?" +:+ Encode params) with
    | inl err => ([], Ok ([], Some ("Failed to create request: " +:+ err)))
    | inr req =>
        match SignRequest now c req with
        | Panic msg => ([], Panic msg)
        | Ok req =>
            match Do req with
            | inl err =>
                ([Signed req; Sent req],
                 Ok ([], Some ("Failed to do request: " +:+ err)))
            | inr body =>
                match Decode body with
                | inl err =>
                    ([Signed req; Sent req],
                     Ok ([], Some ("Malformed response: " +:+ err)))
                | inr message =>
                    ([Signed req; Sent req],
                     Ok ((fun msg => {| ReceiptHandle := rReceiptHandle msg;
                                        Body := rBody msg |}) <$> message,
                         None))
                end
            end
        end
    end.

End ServiceCallers.

(** The slice expression [s[n:]] of a string: the bytes from index [n]
    on; it panics when [n] is more than the length. *)
Fixpoint sliceFrom (s : string) (n : nat) : result string :=
  match n, s with
  | O, _ => Ok s
  | S n', String _ s' => sliceFrom s' n'
  | S _, EmptyString => Panic "slice bounds out of range"
  end.

(** The value of a call that returns [err], after the effects it had. *)
Definition ErrorOutcome : Type := (list Effect * result (option string))%type.

(** ** sns.go *)

(** A context holding the ARN/host pair for an SNS topic. *)
Record Topic : Type := mkTopic {
  host : string;
  arn : string
}.

Definition NewTopic (host arn : string) : Topic :=
  {| host := host; arn := arn |}.

(** The [response] of [Publish]. *)
Record PublishResponse : Type := mkPublishResponse {
  pMessageId : string;
  pRequestId : string
}.

(** ** simplepay.go *)

(** Context for store-wide settings *)
Record Store : Type := mkStore {
  Sandbox : bool;
  ReturnURL : string
}.

(** Defines a purchasable item. *)
Record Purchase : Type := mkPurchase {
  Description : string;
  Price : string;
  ReferenceId : string
}.

(** The [response] of [GetTransactionStatus]. *)
Record StatusResponse : Type := mkStatusResponse {
  sTransactionId : string;
  sTransactionStatus : string;
  sStatusCode : string;
  sStatusMessage : string
}.

(** An element of [response.Errors.Error]. *)
Record ResponseError : Type := mkResponseError {
  eCode : string;
  eMessage : string
}.

(** The [response] of [SettleTransaction]. *)
Record SettleResponse : Type := mkSettleResponse {
  tTransactionId : string;
  tTransactionStatus : string;
  tErrors : list ResponseError
}.

(** The [response] of [VerifyPaymentParams]. *)
Record VerifyResponse : Type := mkVerifyResponse {
  vVerificationStatus : string;
  vErrors : list ResponseError
}.

Section Services.

(** The world of a call, as for [ReceiveMessages], with the decoder of
    each response and [u.String()] of a [url.URL]. *)
Variable now : Time.Time.
Variable NewRequest : string -> string -> string + Request.
Variable Do : Request -> string + string.
Variable DecodePublish : string -> string + PublishResponse.
Variable DecodeStatus : string -> string + StatusResponse.
Variable DecodeSettle : string -> string + SettleResponse.
Variable DecodeVerify : string -> string + VerifyResponse.
Variable URLString : Url.URL -> string.

(** [q.DeleteMessage(c, receiptHandle)] *)
Definition DeleteMessage (q : Queue) (c : Context) (receiptHandle : string)
    : ErrorOutcome :=
  let params : Values := ∅ in
  let params := Set_ params "Action" "DeleteMessage" in
  let params := Set_ params "ReceiptHandle" receiptHandle in
  let params := Set_ params "Version" "2009-02-01" in
  match NewRequest "GET" (url q +:+ "/?" +:+ Encode params) with
  | inl err => ([], Ok (Some ("Failed to create request: " +:+ err)))
  | inr req =>
      match SignRequest now c req with
      | Panic msg => ([], Panic msg)
      | Ok req =>
          match Do req with
          | inl err =>
              ([Signed req; Sent req],
               Ok (Some ("Failed to do request: " +:+ err)))
          | inr _ => ([Signed req; Sent req], Ok None)
          end
      end
  end.

(** [t.Publish(c, body)]: [(messageId, requestId, err)]. *)
Definition Publish (t : Topic) (c : Context) (body : string)
    : list Effect * result (string * string * option string) :=
  let params : Values := ∅ in
  let params := Set_ params "TopicArn" (arn t) in
  let params := Set_ params "Message" body in
  let params := Set_ params "Action" "Publish" in
  match NewRequest "GET" ("https://" +:+ host t +:+ "/?" +:+ Encode params) with
  | inl err => ([], Ok ("", "", Some ("Failed to create request: " +:+ err)))
  | inr req =>
      match SignRequest now c req with
      | Panic msg => ([], Panic msg)
      | Ok req =>
          match Do req with
          | inl err =>
              ([Signed req; Sent req],
               Ok ("", "", Some ("Failed to do request: " +:+ err)))
          | inr body =>
              match DecodePublish body with
              | inl err =>
                  ([Signed req; Sent req],
                   Ok ("", "", Some ("Malformed response: " +:+ err)))
              | inr response =>
                  ([Signed req; Sent req],
                   Ok (pMessageId response, pRequestId response, None))
              end
          end
      end
  end.

(** [store.CreatePurchaseURL(c, item)]: [(url, err)]. *)
Definition CreatePurchaseURL (store : Store) (c : Context) (item : Purchase)
    : list Effect * result (string * option string) :=
  if negb (Strings.HasPrefix (Price item) "USD ") then
    ([], Ok ("", Some "AWS only supports USD prices"))
  else
    let params : Values := ∅ in
    let params := Set_ params "description" (Description item) in
    let params := Set_ params "amount" (Price item) in
    let params := Set_ params "cobrandingStyle" "logo" in
    let params := Set_ params "immediateReturn" "1" in
    let params := Set_ params "processImmediate" "0" in
    let params :=
      if negb (String.eqb (ReferenceId item) "")
      then Set_ params "referenceId" (ReferenceId item) else params in
    let params := Add params "returnURL" (ReturnURL store) in
    let host := "https://authorize.payments.amazon.com/pba/paypipeline?" in
    let host :=
      if Sandbox store
      then "https://authorize.payments-sandbox.amazon.com/pba/paypipeline?"
      else host in
    match NewRequest "GET" (host +:+ Encode params) with
    | inl err => ([], Ok ("", Some ("Failed to build request: " +:+ err)))
    | inr req =>
        match sign now c purchaseSigningContext req with
        | Panic msg => ([], Panic msg)
        | Ok req => ([Signed req], Ok (URLString (URL req), None))
        end
    end.

(** [store.GetTransactionStatus(c, transactionId)] *)
Definition GetTransactionStatus (store : Store) (c : Context)
    (transactionId : string) : ErrorOutcome :=
  let params : Values := ∅ in
  let params := Set_ params "Action" "GetTransactionStatus" in
  let params := Set_ params "TransactionId" transactionId in
  let params := Set_ params "Version" "2008-09-17" in
  let host := "https://fps.amazonaws.com/?" in
  let host :=
    if Sandbox store then "https://fps.sandbox.amazonaws.com/?" else host in
  match NewRequest "GET" (host +:+ Encode params) with
  | inl err => ([], Ok (Some ("Failed to build request: " +:+ err)))
  | inr req =>
      match SignRequest now c req with
      | Panic msg => ([], Panic msg)
      | Ok req =>
          match Do req with
          | inl err =>
              ([Signed req; Sent req],
               Ok (Some ("Failed to contact Amazon: " +:+ err)))
          | inr body =>
              match DecodeStatus body with
              | inl err =>
                  ([Signed req; Sent req],
                   Ok (Some ("Failed to parse Amazon response: " +:+ err)))
              | inr response =>
                  if negb (String.eqb (sStatusCode response) "Success") then
                    ([Signed req; Sent req],
                     Ok (Some ("Amazon returned an invalid status: ("
                               +:+ sStatusCode response +:+ ") "
                               +:+ sStatusMessage response)))
                  else ([Signed req; Sent req], Ok None)
              end
          end
      end
  end.

(** [store.SettleTransaction(c, transactionId, amount)] *)
Definition SettleTransaction (store : Store) (c : Context)
    (transactionId amount : string) : ErrorOutcome :=
  if negb (Strings.HasPrefix amount "USD ") then
    ([], Ok (Some "Cannot settle a non-USD transaction"))
  else
    let params : Values := ∅ in
    let params := Set_ params "Action" "Settle" in
    let params := Set_ params "ReserveTransactionId" transactionId in
    let params := Set_ params "TransactionAmount.CurrencyCode" "USD" in
    match sliceFrom amount 4 with
    | Panic msg => ([], Panic msg)
    | Ok value =>
        let params := Set_ params "TransactionAmount.Value" value in
        let params := Set_ params "Version" "2008-09-17" in
        let host := "https://fps.amazonaws.com/?" in
        let host :=
          if Sandbox store then "https://fps.sandbox.amazonaws.com/?"
          else host in
        match NewRequest "GET" (host +:+ Encode params) with
        | inl err => ([], Ok (Some ("Failed to build request: " +:+ err)))
        | inr req =>
            match SignRequest now c req with
            | Panic msg => ([], Panic msg)
            | Ok req =>
                match Do req with
                | inl err =>
                    ([Signed req; Sent req],
                     Ok (Some ("Failed to contact Amazon: " +:+ err)))
                | inr body =>
                    match DecodeSettle body with
                    | inl err =>
                        ([Signed req; Sent req],
                         Ok (Some ("Failed to decode response from Amazon: "
                                   +:+ err)))
                    | inr response =>
                        match tErrors response with
                        | e :: _ =>
                            ([Signed req; Sent req],
                             Ok (Some ("Amazon returned an error: "
                                       +:+ eMessage e)))
                        | [] => ([Signed req; Sent req], Ok None)
                        end
                    end
                end
            end
        end
    end.

(** [store.VerifyPaymentParams(c, v)] *)
Definition VerifyPaymentParams (store : Store) (c : Context) (v : Values)
    : ErrorOutcome :=
  let params : Values := ∅ in
  let params := Set_ params "Action" "VerifySignature" in
  let params := Set_ params "UrlEndPoint" (ReturnURL store) in
  let params := Set_ params "HttpParameters" (Encode v) in
  let params := Set_ params "Version" "2008-09-17" in
  let host := "https://fps.amazonaws.com/?" in
  let host :=
    if Sandbox store then "https://fps.sandbox.amazonaws.com/?" else host in
  match NewRequest "GET" (host +:+ Encode params) with
  | inl err => ([], Ok (Some ("Failed to build request: " +:+ err)))
  | inr req =>
      match SignRequest now c req with
      | Panic msg => ([], Panic msg)
      | Ok req =>
          match Do req with
          | inl err =>
              ([Signed req; Sent req],
               Ok (Some ("Failed to contact Amazon: " +:+ err)))
          | inr body =>
              match DecodeVerify body with
              | inl err =>
                  ([Signed req; Sent req],
                   Ok (Some ("Failed to decode response from Amazon: " +:+ err)))
              | inr response =>
                  match vErrors response with
                  | e :: _ =>
                      ([Signed req; Sent req],
                       Ok (Some ("Failed to validate signature: "
                                 +:+ eMessage e)))
                  | [] =>
                      if negb (String.eqb (vVerificationStatus response)
                                 "Success")
                      then
                        ([Signed req; Sent req],
                         Ok (Some ("Invalid signature verification: "
                                   +:+ vVerificationStatus response)))
                      else ([Signed req; Sent req], Ok None)
                  end
              end
          end
      end
  end.

End Services.

(** * Notions used in the statements *)

(** The bytes that [QueryEscape] can write: the ones it keeps, [+] for a
    space, and [%] (the hex digits are among the ones it keeps). *)
Definition written (d : ascii) : bool :=
  negb (shouldEscape d) || Ascii.eqb d "+" || Ascii.eqb d "%".

Fixpoint all_written (s : string) : bool :=
  match s with
  | EmptyString => true
  | String d s' => written d && all_written s'
  end.

(** The string that [sign] signs: the contents of [signString] when it is
    passed to the HMAC. *)
Definition stringToSign (now : Time.Time) (c : Context) (sc : signingContext)
    (r : Request) : result string :=
  params ← getValues now sc c r;
  Ok (signString r (queryString params)).

(** The value of [signature] in [sign]. *)
Definition signatureValue (now : Time.Time) (c : Context)
    (sc : signingContext) (r : Request) : result string :=
  s ← stringToSign now c sc r;
  Ok (signature c s).

(** The name under which [addSignature] writes the signature. *)
Definition signatureField (sc : signingContext) : string :=
  if sc =? defaultHTTPSigningContext then "Signature" else "signature".

(** The names that [getValues] sets. *)
Definition injected (sc : signingContext) : list string :=
  if sc =? defaultHTTPSigningContext
  then ["Timestamp"; "AWSAccessKeyId"; "SignatureVersion"; "SignatureMethod"]
  else ["accessKey"; "signatureVersion"; "signatureMethod"].

(** The three corrections of [sign] to the query string. *)
Definition corrected (s : string) : string :=
  Strings.Replace (Strings.Replace (Strings.Replace s "+" "%20") "(" "%28")
    ")" "%29".

(** What a byte of a key or of a value becomes in the string to sign: a
    space is [%20], a byte that [QueryEscape] keeps is itself, every other
    byte, the [+] and the parentheses among them, is [%] and its two
    upper-case hex digits. *)
Definition signedByte (c : ascii) : string :=
  if Ascii.eqb c " " then "%20"
  else if shouldEscape c then
    String "%" (String (hexdigit (N.shiftr (N_of_ascii c) 4))
               (String (hexdigit (N.land (N_of_ascii c) 15)) ""))
  else String c "".

Fixpoint signedText (s : string) : string :=
  match s with
  | EmptyString => ""
  | String c s' => signedByte c +:+ signedText s'
  end.

(** [strings.ToUpper] on ASCII letters, for the statement of the
    specification that the method is signed in upper case. *)
Definition upperByte (c : ascii) : ascii :=
  if byte_in "a" "z" c then ascii_of_N (N_of_ascii c - 32) else c.

Fixpoint ToUpper (s : string) : string :=
  match s with
  | EmptyString => ""
  | String c s' => String (upperByte c) (ToUpper s')
  end.

(** The substitution as the specification words it: a space, a [+], a
    [(] and a [)] become [%20], [%20], [%28] and [%29]. *)
Definition claimedByte (c : ascii) : string :=
  if Ascii.eqb c " " then "%20"
  else if Ascii.eqb c "+" then "%20"
  else if Ascii.eqb c "(" then "%28"
  else if Ascii.eqb c ")" then "%29"
  else signedByte c.

Fixpoint claimedText (s : string) : string :=
  match s with
  | EmptyString => ""
  | String c s' => claimedByte c +:+ claimedText s'
  end.

(** The statement of the specification on the escaping: every parameter
    of the request that [getValues] does not overwrite is signed with
    the substitution [claimedText]. *)
Definition escapes_as_specified (now : Time.Time) (c : Context)
    (sc : signingContext) (r : Request) : Prop :=
  forall k x, x ∈ index (Query (URL r)) k -> k ∉ injected sc ->
    exists params, getValues now sc c r = Ok params
      /\ stringToSign now c sc r = Ok (signString r (queryString params))
      /\ claimedText k +:+ "=" +:+ claimedText x
           ∈ Strings.Split (queryString params) "&".

(** The statement of the specification on the layout of the string to
    sign, with the method in upper case. *)
Definition signs_upper_case_method (now : Time.Time) (c : Context)
    (sc : signingContext) (r : Request) : Prop :=
  exists params, getValues now sc c r = Ok params
    /\ stringToSign now c sc r
       = Ok (Strings.Join [ToUpper (Method r); Host (URL r); Path (URL r);
                           queryString params] newline).

(** The fields with upper-case names, the ones of the default profile. *)
Definition upperCaseFields : list string :=
  ["AWSAccessKeyId"; "SignatureVersion"; "SignatureMethod"; "Signature";
   "Timestamp"].

(** The statement of the specification on the purchase profile: the
    signed request has none of the fields with upper-case names. *)
Definition purchase_has_no_upper_case_field (now : Time.Time) (c : Context)
    (r : Request) : Prop :=
  forall r', sign now c purchaseSigningContext r = Ok r' ->
    forall k, k ∈ upperCaseFields -> Query (URL r') !! k = None.

(** The key/value pairs that a [Values] holds, as a multiset: every key
    with each of its values. *)
Definition pairs (v : Values) : list (string * string) :=
  map_to_list v ≫= fun kv => pair kv.1 <$> kv.2.

(** The [key=value] string that [Encode] writes for a pair. *)
Definition encodePair (p : string * string) : string :=
  QueryEscape p.1 +:+ "=" +:+ QueryEscape p.2.

(** The URLs that the service calls request. *)
Definition ReceiveMessagesURL (q : Queue) (max seconds : Z) : string :=
  url q +:+ "/?Action=ReceiveMessage&MaxNumberOfMessages="
    +:+ Strconv.FormatInt max
    +:+ "&Version=2009-02-01&VisibilityTimeout=5&WaitTimeSeconds="
    +:+ Strconv.FormatInt seconds.

Definition DeleteMessageQuery (receiptHandle : string) : string :=
  "Action=DeleteMessage&ReceiptHandle=" +:+ QueryEscape receiptHandle
    +:+ "&Version=2009-02-01".

Definition PublishQuery (t : Topic) (body : string) : string :=
  "Action=Publish&Message=" +:+ QueryEscape body +:+ "&TopicArn="
    +:+ QueryEscape (arn t).

(** The two hosts of the payment calls, for the sandbox and without. *)
Definition PayPipelineHost (store : Store) : string :=
  if Sandbox store
  then "https://authorize.payments-sandbox.amazon.com/pba/paypipeline?"
  else "https://authorize.payments.amazon.com/pba/paypipeline?".

Definition FPSHost (store : Store) : string :=
  if Sandbox store then "https://fps.sandbox.amazonaws.com/?"
  else "https://fps.amazonaws.com/?".

Definition PurchaseQuery (store : Store) (item : Purchase) : string :=
  "amount=" +:+ QueryEscape (Price item)
    +:+ "&cobrandingStyle=logo&description="
    +:+ QueryEscape (Description item)
    +:+ "&immediateReturn=1&processImmediate=0"
    +:+ (if String.eqb (ReferenceId item) "" then ""
         else "&referenceId=" +:+ QueryEscape (ReferenceId item))
    +:+ "&returnURL=" +:+ QueryEscape (ReturnURL store).

Definition StatusQuery (transactionId : string) : string :=
  "Action=GetTransactionStatus&TransactionId=" +:+ QueryEscape transactionId
    +:+ "&Version=2008-09-17".

Definition SettleQuery (transactionId value : string) : string :=
  "Action=Settle&ReserveTransactionId=" +:+ QueryEscape transactionId
    +:+ "&TransactionAmount.CurrencyCode=USD&TransactionAmount.Value="
    +:+ QueryEscape value +:+ "&Version=2008-09-17".

Definition VerifyQuery (store : Store) (v : Values) : string :=
  "Action=VerifySignature&HttpParameters=" +:+ QueryEscape (Encode v)
    +:+ "&UrlEndPoint=" +:+ QueryEscape (ReturnURL store)
    +:+ "&Version=2008-09-17".

(** The parameters of a purchase before it is signed; the reference is
    among them when it is not empty. *)
Definition ItemParameters (store : Store) (item : Purchase) : Values :=
  let base : Values :=
    {[ "amount" := [Price item]; "cobrandingStyle" := ["logo"];
       "description" := [Description item]; "immediateReturn" := ["1"];
       "processImmediate" := ["0"]; "returnURL" := [ReturnURL store] ]} in
  if String.eqb (ReferenceId item) "" then base
  else <["referenceId" := [ReferenceId item]]> base.

(** * Inputs of the examples *)

Definition exampleTime : Time.Time := Time.mkTime 2020 1 1 0 0 0.

Definition laterTime : Time.Time := Time.mkTime 2020 1 1 0 0 1.

Definition exampleContext : Context := NewContext "AKIDEXAMPLE" "secret".

Definition exampleRequest : Request :=
  {| Method := "GET";
     URL := {| Host := "sqs.example.com"; Path := "/";
               RawQuery := "Action=ReceiveMessage&Version=2009-02-01" |} |}.

(** [exampleRequest] after [SignRequest] at [exampleTime]. *)
Definition signedRequest : Request :=
  {| Method := "GET";
     URL := {| Host := "sqs.example.com"; Path := "/";
               RawQuery := "AWSAccessKeyId=AKIDEXAMPLE&Action=ReceiveMessage&Signature=rnT6hCW8rfh15Z3q9OOdPsDO16Zql336zSodfjXtdXc%3D&SignatureMethod=HmacSHA256&SignatureVersion=2&Timestamp=2020-01-01T00%3A00%3A00Z&Version=2009-02-01" |} |}.

(** A parameter [k] whose value is [a+b]. *)
Definition plusRequest : Request :=
  {| Method := "GET";
     URL := {| Host := "sqs.example.com"; Path := "/";
               RawQuery := "k=a%2Bb" |} |}.

(** A parameter [k] whose value is [a b+c(d)]: in a raw query a [+] is a
    space, and [%2B] is a [+]. *)
Definition escapedRequest : Request :=
  {| Method := "GET";
     URL := {| Host := "sqs.example.com"; Path := "/";
               RawQuery := "k=a+b%2Bc(d)" |} |}.

(** The same pairs in two orders. *)
Definition orderRequest1 : Request :=
  {| Method := "GET";
     URL := {| Host := "sqs.example.com"; Path := "/";
               RawQuery := "b=2&a=1&a=0" |} |}.

Definition orderRequest2 : Request :=
  {| Method := "GET";
     URL := {| Host := "sqs.example.com"; Path := "/";
               RawQuery := "a=0&b=2&a=1" |} |}.

(** A method in lower case. *)
Definition lowerRequest : Request :=
  {| Method := "get";
     URL := {| Host := "sqs.example.com"; Path := "/";
               RawQuery := "Action=ReceiveMessage" |} |}.

(** A request for the pay pipeline that has a [Timestamp]. *)
Definition stampedRequest : Request :=
  {| Method := "GET";
     URL := {| Host := "authorize.payments.amazon.com";
               Path := "/pba/paypipeline";
               RawQuery := "amount=USD+1&Timestamp=2020-01-01T00%3A00%3A00Z" |} |}.

Definition exampleQueue : Queue := NewQueue "https://sqs.example.com".


Definition exampleDo (r : Request) : string + string := inl "no network".

Definition exampleDecode (body : string) : string + list ResponseMessage :=
  inr [].

(** A world in which [http.NewRequest] keeps the text after the first
    [?] as the query, and every request is answered. *)
Definition queryNewRequest (method u : string) : string + Request :=
  let '(_, after, _) := Strings.Cut u "?" in
  inr {| Method := method;
         URL := {| Host := "aws.example.com"; Path := "/";
                   RawQuery := after |} |}.

Definition answerDo (r : Request) : string + string := inr "<Response/>".

Definition exampleTopic : Topic :=
  NewTopic "sns.example.com" "arn:aws:sns:us-east-1:1:topic".

Definition exampleStore : Store :=
  {| Sandbox := true; ReturnURL := "https://shop.example.com/done" |}.

Definition exampleItem : Purchase :=
  {| Description := "A book & a pen"; Price := "USD 12.50";
     ReferenceId := "" |}.

Definition exampleURLString (u : Url.URL) : string :=
  "https://" +:+ Host u +:+ Path u +:+ "?" +:+ RawQuery u.

(** * Properties *)

(** ** The hash functions on known values *)

(** SHA-256 of [abc] (FIPS 180-4), the HMAC of RFC 4231, test case 2, and
    an HMAC with a key longer than a block, in base64. *)
Lemma Sum256_abc :
  Base64.EncodeToString (Sha256.Sum256 (bytes "abc"))
  = "ungWv48Bz+pBQUDeXa4iI7ADYaOWF3qctBD/YfIAFa0=".
Proof. vm_compute. reflexivity. Qed.

Lemma Hmac_rfc4231_2 :
  Base64.EncodeToString
    (Hmac.Sum (bytes "Jefe") (bytes "what do ya want for nothing?"))
  = "W9zBRr9gdU5qBCQmCJV1x1oAPwidJzmDnexYuWTsOEM=".
Proof. vm_compute. reflexivity. Qed.

Lemma Hmac_long_key :
  Base64.EncodeToString
    (Hmac.Sum (repeat 107 100) (repeat 120 200))
  = "4ybwDOFBlLuF4mg/6bGniFF1P3dHkwP5TCw80ZmL3aM=".
Proof. vm_compute. reflexivity. Qed.

(** ** Strings as byte sequences *)

Section StringFacts.

Implicit Types (s t : string) (c d : ascii) (l : list string).

Lemma append_cons c s t : String c s +:+ t = String c (s +:+ t).
Proof. reflexivity. Qed.

Lemma append_nil_l s : "" +:+ s = s.
Proof. reflexivity. Qed.

Lemma append_assoc s t u : (s +:+ t) +:+ u = s +:+ (t +:+ u).
Proof. induction s as [|c s IH]; [done|]. by rewrite !append_cons, IH. Qed.

Lemma Contains_cons c s d :
  Strings.Contains (String c s) d = Ascii.eqb c d || Strings.Contains s d.
Proof. reflexivity. Qed.

Lemma Contains_singleton c d :
  c ≠ d → Strings.Contains (String c "") d = false.
Proof. intros H. rewrite Contains_cons. by apply Ascii.eqb_neq in H as ->. Qed.

Lemma Contains_app s t d :
  Strings.Contains (s +:+ t) d = Strings.Contains s d || Strings.Contains t d.
Proof.
  induction s as [|c s IH]; [done|].
  rewrite append_cons, !Contains_cons, IH. by rewrite orb_assoc.
Qed.

Lemma Split_cons_sep s sep :
  Strings.Split (String sep s) sep = "" :: Strings.Split s sep.
Proof. simpl. by rewrite Ascii.eqb_refl. Qed.

(** A string without the separator is one segment. *)
Lemma Split_no_sep s sep :
  Strings.Contains s sep = false → Strings.Split s sep = [s].
Proof.
  induction s as [|c s IH]; [done|]. rewrite Contains_cons.
  intros [Hc Hs]%orb_false_iff. simpl. rewrite Hc, (IH Hs). done.
Qed.

Lemma Split_app s t sep :
  Strings.Contains s sep = false →
  Strings.Split (s +:+ String sep t) sep = s :: Strings.Split t sep.
Proof.
  induction s as [|c s IH]; intros H.
  - rewrite append_nil_l. apply Split_cons_sep.
  - rewrite Contains_cons in H. apply orb_false_iff in H as [Hc Hs].
    rewrite append_cons. simpl. rewrite Hc, (IH Hs). done.
Qed.

Lemma Join_cons x y l sep :
  Strings.Join (x :: y :: l) sep = x +:+ sep +:+ Strings.Join (y :: l) sep.
Proof. reflexivity. Qed.

(** [Split] undoes [Join] on segments without the separator. *)
Lemma Split_Join l sep :
  l ≠ [] → Forall (fun x => Strings.Contains x sep = false) l →
  Strings.Split (Strings.Join l (String sep "")) sep = l.
Proof.
  intros Hne Hall. induction Hall as [|x l Hx Hl IH]; [done|].
  destruct l as [|y l].
  - simpl. by apply Split_no_sep.
  - rewrite Join_cons, append_cons, append_nil_l, (Split_app _ _ _ Hx).
    by rewrite IH.
Qed.

Lemma Replace_app s t old new :
  Strings.Replace (s +:+ t) old new
  = Strings.Replace s old new +:+ Strings.Replace t old new.
Proof.
  induction s as [|c s IH]; [done|]. rewrite append_cons. simpl.
  rewrite IH. destruct (Ascii.eqb c old); [|done]. by rewrite append_assoc.
Qed.

Lemma Replace_id s old new :
  Strings.Contains s old = false → Strings.Replace s old new = s.
Proof.
  induction s as [|c s IH]; [done|]. rewrite Contains_cons.
  intros [Hc Hs]%orb_false_iff. simpl. by rewrite Hc, (IH Hs).
Qed.

Lemma Replace_Join l sep old new :
  Strings.Contains sep old = false →
  Strings.Replace (Strings.Join l sep) old new
  = Strings.Join (map (fun x => Strings.Replace x old new) l) sep.
Proof.
  intros Hsep. induction l as [|x [|y l] IH]; [done..|].
  rewrite Join_cons, !Replace_app, IH, (Replace_id sep) by done. done.
Qed.

Lemma Contains_Replace s old new d :
  Strings.Contains s d = false → Strings.Contains new d = false →
  Strings.Contains (Strings.Replace s old new) d = false.
Proof.
  intros Hs Hnew. induction s as [|c s IH]; [done|].
  rewrite Contains_cons in Hs. apply orb_false_iff in Hs as [Hc Hs].
  simpl. destruct (Ascii.eqb c old).
  - by rewrite Contains_app, Hnew, IH.
  - by rewrite Contains_cons, Hc, IH.
Qed.

Lemma Cut_app s t sep :
  Strings.Contains s sep = false →
  Strings.Cut (s +:+ String sep t) sep = (s, t, true).
Proof.
  induction s as [|c s IH]; intros H.
  - rewrite append_nil_l. simpl. by rewrite Ascii.eqb_refl.
  - rewrite Contains_cons in H. apply orb_false_iff in H as [Hc Hs].
    rewrite append_cons. simpl. by rewrite Hc, (IH Hs).
Qed.

Lemma Contains_Join l sep d :
  Forall (fun x => Strings.Contains x d = false) l →
  Strings.Contains sep d = false →
  Strings.Contains (Strings.Join l sep) d = false.
Proof.
  intros Hall Hsep. induction Hall as [|x l Hx Hl IH]; [done|].
  destruct l as [|y l]; [done|].
  by rewrite Join_cons, !Contains_app, Hx, Hsep, IH.
Qed.

End StringFacts.

(** ** Escaping *)

Section EscapeFacts.

Implicit Types (s t : string) (c d : ascii).

Lemma all_written_app s t :
  all_written (s +:+ t) = all_written s && all_written t.
Proof.
  induction s as [|c s IH]; [done|].
  rewrite append_cons. simpl. by rewrite IH, andb_assoc.
Qed.

Lemma escapeByte_written c : all_written (escapeByte c) = true.
Proof. by destruct c as [[] [] [] [] [] [] [] []]. Qed.

Lemma QueryEscape_written s : all_written (QueryEscape s) = true.
Proof.
  induction s as [|c s IH]; [done|]. simpl.
  by rewrite all_written_app, escapeByte_written, IH.
Qed.

Lemma all_written_Contains s d :
  all_written s = true → written d = false → Strings.Contains s d = false.
Proof.
  intros Hs Hd. induction s as [|c s IH]; [done|].
  simpl in Hs. apply andb_true_iff in Hs as [Hc Hs].
  rewrite Contains_cons, (IH Hs), orb_false_r.
  apply Ascii.eqb_neq. intros ->. congruence.
Qed.

(** An escaped string holds no byte that [QueryEscape] does not write:
    no [&], [=], [;], newline or parenthesis. *)
Lemma QueryEscape_Contains s d :
  written d = false → Strings.Contains (QueryEscape s) d = false.
Proof. intros. apply all_written_Contains; [apply QueryEscape_written|done]. Qed.

Lemma QueryUnescape_escapeByte c t :
  QueryUnescape (escapeByte c +:+ t) = String c <$> QueryUnescape t.
Proof. by destruct c as [[] [] [] [] [] [] [] []]. Qed.

(** [QueryUnescape] undoes [QueryEscape]. *)
Lemma QueryUnescape_QueryEscape s : QueryUnescape (QueryEscape s) = Some s.
Proof.
  induction s as [|c s IH]; [done|]. simpl.
  by rewrite QueryUnescape_escapeByte, IH.
Qed.

End EscapeFacts.

(** ** Sorting *)

Section SortFacts.

Implicit Types (l k : list string).

Lemma Strings_Permutation l : Sort.Strings l ≡ₚ l.
Proof. apply merge_sort_Permutation. Qed.

Lemma Strings_Sorted l : Sorted String.le (Sort.Strings l).
Proof. apply (Sorted_merge_sort _). Qed.

(** The sorted list is unique: whatever the algorithm of [sort.Strings],
    its result is [Sort.Strings]. *)
Lemma Strings_unique l k :
  Sorted String.le k → k ≡ₚ l → k = Sort.Strings l.
Proof.
  intros Hk Hp. apply (Sorted_unique String.le); [done|apply Strings_Sorted|].
  by rewrite Strings_Permutation.
Qed.

Lemma Strings_perm l k : l ≡ₚ k → Sort.Strings l = Sort.Strings k.
Proof.
  intros Hp. apply Strings_unique; [apply Strings_Sorted|].
  by rewrite Strings_Permutation.
Qed.

End SortFacts.

(** ** Values *)

Section ValuesFacts.

Implicit Types (v m : Values) (k key x : string).

Lemma index_Set_eq v k x : index (Set_ v k x) k = [x].
Proof. unfold index, Set_. by rewrite lookup_insert_eq. Qed.

Lemma index_Set_ne v k k' x : k ≠ k' → index (Set_ v k x) k' = index v k'.
Proof. intros. unfold index, Set_. by rewrite lookup_insert_ne. Qed.

Lemma sortedKeys_Permutation v : sortedKeys v ≡ₚ (map_to_list v).*1.
Proof. apply Strings_Permutation. Qed.

Lemma NoDup_sortedKeys v : NoDup (sortedKeys v).
Proof. rewrite sortedKeys_Permutation. apply NoDup_fst_map_to_list. Qed.

Lemma elem_of_sortedKeys v k : k ∈ sortedKeys v ↔ is_Some (v !! k).
Proof.
  rewrite sortedKeys_Permutation, list_elem_of_fmap. split.
  - intros [[k' x] [-> H%elem_of_map_to_list]]. by exists x.
  - intros [x H]. exists (k, x). by rewrite elem_of_map_to_list.
Qed.

Lemma elem_of_pairs v k x : (k, x) ∈ pairs v ↔ x ∈ index v k.
Proof.
  unfold pairs, index. rewrite list_elem_of_bind. split.
  - intros [[k' xs] [Hx Hk%elem_of_map_to_list]].
    apply list_elem_of_fmap in Hx as [x' [[= -> ->] Hx]].
    simpl in *. by rewrite Hk.
  - destruct (v !! k) as [xs|] eqn:Hk; simpl; [|by intros ?%elem_of_nil].
    intros Hx. exists (k, xs). split; [|by apply elem_of_map_to_list].
    by apply list_elem_of_fmap_2.
Qed.

(** What [Encode] joins is the encoding of the pairs, in some order. *)
Lemma encoded_pairs v : sortedKeys v ≫= encodeKey v ≡ₚ encodePair <$> pairs v.
Proof.
  rewrite sortedKeys_Permutation. unfold pairs.
  assert (Forall (fun kv => v !! kv.1 = Some kv.2) (map_to_list v)) as H.
  { apply Forall_forall. intros [k xs]. apply elem_of_map_to_list. }
  induction H as [|[k xs] l Hk Hl IH]; [done|].
  rewrite fmap_cons, !bind_cons, fmap_app, IH. f_equiv.
  unfold encodeKey, index. simpl in *. rewrite Hk. simpl.
  by rewrite <-list_fmap_compose.
Qed.

Lemma pairs_insert v k xs :
  v !! k = None → pairs (<[k := xs]> v) ≡ₚ (pair k <$> xs) ++ pairs v.
Proof.
  intros Hk. unfold pairs. by rewrite map_to_list_insert, bind_cons.
Qed.

Lemma filter_Forall_id {A} (P : A → Prop) `{∀ a, Decision (P a)} (l : list A) :
  Forall P l → filter P l = l.
Proof.
  induction 1 as [|a l Ha Hl IH]; [done|]. by rewrite filter_cons_True, IH.
Qed.

Lemma pairs_delete v k :
  pairs (delete k v) ≡ₚ filter (fun p => p.1 ≠ k) (pairs v).
Proof.
  assert (forall m, m !! k = None → filter (fun p => p.1 ≠ k) (pairs m) = pairs m)
    as Hid.
  { intros m Hm. apply filter_Forall_id, Forall_forall.
    intros [k' x] Hx%elem_of_pairs Heq. simpl in Heq. subst k'.
    unfold index in Hx.
    rewrite Hm in Hx. by apply elem_of_nil in Hx. }
  destruct (v !! k) as [xs|] eqn:Hk.
  - rewrite <-(insert_delete_id v k xs) at 2 by done.
    rewrite pairs_insert by apply lookup_delete_eq.
    rewrite filter_app, Hid by apply lookup_delete_eq.
    assert (filter (fun p : string * string => p.1 ≠ k) (pair k <$> xs) = [])
      as ->; [|done].
    clear. induction xs as [|x xs IH]; [done|].
    rewrite fmap_cons, filter_cons_False; [done|]. simpl. by intros [].
  - by rewrite delete_id, Hid.
Qed.

(** [Set] replaces all the pairs of the key by one. *)
Lemma pairs_Set v k x :
  pairs (Set_ v k x) ≡ₚ (k, x) :: filter (fun p => p.1 ≠ k) (pairs v).
Proof.
  unfold Set_. rewrite <-insert_delete_eq.
  rewrite pairs_insert by apply lookup_delete_eq.
  by rewrite pairs_delete.
Qed.

Lemma pairs_Set_perm v1 v2 k x :
  pairs v1 ≡ₚ pairs v2 → pairs (Set_ v1 k x) ≡ₚ pairs (Set_ v2 k x).
Proof. intros H. by rewrite !pairs_Set, H. Qed.

End ValuesFacts.

(** ** Parsing what [Encode] wrote *)

Section RoundTrip.

Implicit Types (v m : Values) (k x : string).

Lemma encoded_no_amp v :
  Forall (fun s => Strings.Contains s "&" = false) (sortedKeys v ≫= encodeKey v).
Proof.
  apply Forall_forall. intros s (k & Hs & _)%list_elem_of_bind.
  apply list_elem_of_fmap in Hs as [x [-> _]].
  by rewrite !Contains_app, !QueryEscape_Contains.
Qed.

Lemma parseSegment_encoded m k x :
  parseSegment m (QueryEscape k +:+ "=" +:+ QueryEscape x)
  = <[k := index m k ++ [x]]> m.
Proof.
  unfold parseSegment.
  rewrite !Contains_app, !QueryEscape_Contains by done. simpl.
  assert ((QueryEscape k +:+ "=" +:+ QueryEscape x =? "")%string = false) as ->.
  { apply String.eqb_neq. by destruct (QueryEscape k). }
  rewrite append_cons, append_nil_l, Cut_app by by apply QueryEscape_Contains.
  by rewrite !QueryUnescape_QueryEscape.
Qed.

Lemma parse_values m k xs :
  foldl parseSegment m
    ((fun x => QueryEscape k +:+ "=" +:+ QueryEscape x) <$> xs)
  = match xs with [] => m | _ => <[k := index m k ++ xs]> m end.
Proof.
  revert m. induction xs as [|x xs IH]; intros m; [done|].
  rewrite fmap_cons. simpl. rewrite parseSegment_encoded, IH.
  destruct xs as [|y xs]; [done|].
  unfold index at 1. rewrite lookup_insert_eq. simpl.
  by rewrite insert_insert_eq, <-app_assoc.
Qed.

Lemma parse_encodeKey v m k :
  foldl parseSegment m (encodeKey v k)
  = match index v k with [] => m | _ => <[k := index m k ++ index v k]> m end.
Proof. apply parse_values. Qed.

Lemma parse_keys v keys m k :
  NoDup keys →
  foldl parseSegment m (keys ≫= encodeKey v) !! k
  = if decide (k ∈ keys ∧ index v k ≠ [])
    then Some (index m k ++ index v k) else m !! k.
Proof.
  intros Hnd. revert m.
  induction Hnd as [|k0 ks Hk0 Hks IH]; intros m.
  { destruct (decide _) as [[?%elem_of_nil _]|]; done. }
  rewrite bind_cons, foldl_app, IH, !parse_encodeKey.
  destruct (decide (k = k0)) as [->|Hne].
  - destruct (decide (k0 ∈ ks ∧ _)) as [[? _]|_]; [done|].
    destruct (index v k0) as [|y ys] eqn:Hv.
    + destruct (decide _) as [[_ ?]|]; done.
    + rewrite lookup_insert_eq.
      destruct (decide _) as [|Hn]; [done|].
      destruct Hn. split; [by left|done].
  - assert (index (match index v k0 with
                   | [] => m
                   | _ => <[k0 := index m k0 ++ index v k0]> m
                   end) k = index m k) as ->.
    { destruct (index v k0); [done|]. unfold index.
      by rewrite lookup_insert_ne. }
    assert ((match index v k0 with
             | [] => m
             | _ => <[k0 := index m k0 ++ index v k0]> m
             end) !! k = m !! k) as ->.
    { destruct (index v k0); [done|]. by rewrite lookup_insert_ne. }
    destruct (decide (k ∈ ks ∧ index v k ≠ [])) as [[Hin Hv]|Hn];
      destruct (decide (k ∈ k0 :: ks ∧ index v k ≠ [])) as [[Hin' Hv']|Hn'];
      try done.
    + destruct Hn'. split; [by right|done].
    + destruct Hn. split; [|done]. apply elem_of_cons in Hin' as [?|?]; done.
Qed.

Lemma parseQuery_Join m (l : list string) :
  Forall (fun s => Strings.Contains s "&" = false) l →
  parseQuery m (Strings.Join l "&") = foldl parseSegment m l.
Proof.
  intros Hl. unfold parseQuery. destruct l as [|s l]; [done|].
  by rewrite Split_Join.
Qed.

(** [ParseQuery] reads back what [Encode] wrote: every key with its
    values in order, but for the keys that have no value, which [Encode]
    does not write. *)
Lemma ParseQuery_Encode v k :
  ParseQuery (Encode v) !! k
  = match v !! k with Some (x :: xs) => Some (x :: xs) | _ => None end.
Proof.
  unfold ParseQuery, Encode.
  rewrite parseQuery_Join by apply encoded_no_amp.
  rewrite parse_keys by apply NoDup_sortedKeys.
  destruct (decide _) as [[Hin Hv]|Hn].
  - apply elem_of_sortedKeys in Hin as [xs Hk]. unfold index in *.
    rewrite Hk in *. simpl in *. by destruct xs.
  - rewrite lookup_empty. destruct (v !! k) as [[|x xs]|] eqn:Hk; try done.
    destruct Hn. split; [apply elem_of_sortedKeys; by eexists|].
    unfold index. by rewrite Hk.
Qed.

End RoundTrip.

(** ** The signer *)

Section Signer.

Implicit Types (now : Time.Time) (c : Context) (sc : signingContext)
  (r : Request) (v params : Values).

Lemma sign_eq now c sc r :
  sign now c sc r
  = (params ← getValues now sc c r;
     sig ← signatureValue now c sc r;
     params ← addSignature sc params sig;
     Ok {| Method := Method r;
           URL := {| Host := Host (URL r); Path := Path (URL r);
                     RawQuery := Encode params |} |}).
Proof.
  unfold sign, signatureValue, stringToSign.
  by destruct (getValues now sc c r).
Qed.

Lemma getValues_default now c r :
  getValues now defaultHTTPSigningContext c r
  = Ok (Set_ (Set_ (Set_ (Set_ (Query (URL r))
          "Timestamp" (Time.FormatRFC3339 now))
          "AWSAccessKeyId" (keyId c))
          "SignatureVersion" "2")
          "SignatureMethod" "HmacSHA256").
Proof. reflexivity. Qed.

Lemma getValues_purchase now c r :
  getValues now purchaseSigningContext c r
  = Ok (Set_ (Set_ (Set_ (Query (URL r))
          "accessKey" (keyId c))
          "signatureVersion" "2")
          "signatureMethod" "HmacSHA256").
Proof. reflexivity. Qed.

Lemma sign_default now c r :
  sign now c defaultHTTPSigningContext r
  = (params ← getValues now defaultHTTPSigningContext c r;
     sig ← signatureValue now c defaultHTTPSigningContext r;
     Ok {| Method := Method r;
           URL := {| Host := Host (URL r); Path := Path (URL r);
                     RawQuery := Encode (Set_ params "Signature" sig) |} |}).
Proof. reflexivity. Qed.

Lemma sign_purchase now c r :
  sign now c purchaseSigningContext r
  = (params ← getValues now purchaseSigningContext c r;
     sig ← signatureValue now c purchaseSigningContext r;
     Ok {| Method := Method r;
           URL := {| Host := Host (URL r); Path := Path (URL r);
                     RawQuery := Encode (Set_ params "signature" sig) |} |}).
Proof. reflexivity. Qed.

Lemma getValues_unknown now c sc r :
  sc ≠ defaultHTTPSigningContext → sc ≠ purchaseSigningContext →
  getValues now sc c r = Panic "Unknown signing context".
Proof.
  intros H0 H1. unfold getValues.
  by rewrite (proj2 (Z.eqb_neq _ _) H0), (proj2 (Z.eqb_neq _ _) H1).
Qed.

End Signer.

(** ** The query string that is signed *)

Section QueryStringFacts.

Implicit Types (v : Values) (k x s t : string).

Lemma Split_Encode v :
  Strings.Split (Encode v) "&"
  = match sortedKeys v ≫= encodeKey v with
    | [] => [""]
    | l => l
    end.
Proof.
  unfold Encode. pose proof (encoded_no_amp v) as H.
  destruct (sortedKeys v ≫= encodeKey v) as [|s l]; [done|].
  by rewrite Split_Join.
Qed.

Lemma corrected_app s t : corrected (s +:+ t) = corrected s +:+ corrected t.
Proof. unfold corrected. by rewrite !Replace_app. Qed.

Lemma corrected_escapeByte c : corrected (escapeByte c) = signedByte c.
Proof. by destruct c as [[] [] [] [] [] [] [] []]. Qed.

Lemma corrected_QueryEscape s : corrected (QueryEscape s) = signedText s.
Proof.
  induction s as [|c s IH]; [done|]. simpl.
  by rewrite corrected_app, corrected_escapeByte, IH.
Qed.

Lemma corrected_encodePair k x :
  corrected (encodePair (k, x)) = signedText k +:+ "=" +:+ signedText x.
Proof.
  unfold encodePair. simpl. by rewrite !corrected_app, !corrected_QueryEscape.
Qed.

Lemma queryString_eq v :
  queryString v
  = Strings.Join
      (corrected <$> Sort.Strings (Strings.Split (Encode v) "&")) "&".
Proof.
  unfold queryString, corrected.
  rewrite !Replace_Join by done. by rewrite <-!list_fmap_compose.
Qed.

Lemma signedByte_written c : all_written (signedByte c) = true.
Proof. by destruct c as [[] [] [] [] [] [] [] []]. Qed.

Lemma signedText_written s : all_written (signedText s) = true.
Proof.
  induction s as [|c s IH]; [done|]. simpl.
  by rewrite all_written_app, signedByte_written, IH.
Qed.

(** The segments that are sorted: the encoded pairs, or one empty string
    when there is no pair. *)
Lemma elem_of_Split_Encode v s :
  s ∈ Strings.Split (Encode v) "&" →
  s = "" ∨ ∃ k x, x ∈ index v k ∧ s = encodePair (k, x).
Proof.
  rewrite Split_Encode.
  destruct (sortedKeys v ≫= encodeKey v) as [|s0 l] eqn:Hl.
  - intros ->%list_elem_of_singleton. by left.
  - rewrite <-Hl, encoded_pairs. intros [[k x] [-> Hp]]%list_elem_of_fmap.
    right. exists k, x. by rewrite <-elem_of_pairs.
Qed.

Lemma elem_of_sorted_segments v s :
  s ∈ corrected <$> Sort.Strings (Strings.Split (Encode v) "&") →
  s = "" ∨ ∃ k x, x ∈ index v k ∧ s = signedText k +:+ "=" +:+ signedText x.
Proof.
  intros [s' [-> Hs]]%list_elem_of_fmap.
  rewrite Strings_Permutation in Hs.
  apply elem_of_Split_Encode in Hs as [->|(k & x & Hx & ->)]; [by left|].
  right. exists k, x. by rewrite corrected_encodePair.
Qed.

Lemma sorted_segments_no d v :
  written d = false → d ≠ "="%char →
  Forall (fun s => Strings.Contains s d = false)
    (corrected <$> Sort.Strings (Strings.Split (Encode v) "&")).
Proof.
  intros Hd Hne. apply Forall_forall. intros s Hs.
  apply elem_of_sorted_segments in Hs as [->|(k & x & _ & ->)]; [done|].
  rewrite !Contains_app, (all_written_Contains (signedText k)),
    (all_written_Contains (signedText x)), Contains_singleton
    by (done || apply signedText_written).
  done.
Qed.

(** The query string that is signed holds no byte but the ones that
    [QueryEscape] writes, [=] and [&]. *)
Lemma queryString_Contains v d :
  written d = false → d ≠ "="%char → d ≠ "&"%char →
  Strings.Contains (queryString v) d = false.
Proof.
  intros Hd He Ha. rewrite queryString_eq.
  apply Contains_Join; [by apply sorted_segments_no|].
  by apply Contains_singleton.
Qed.

(** Every pair of the parameters is a segment of the query string that
    is signed, in its signed form. *)
Lemma signed_pair_in_queryString v k x :
  x ∈ index v k →
  signedText k +:+ "=" +:+ signedText x
    ∈ Strings.Split (queryString v) "&".
Proof.
  intros Hx. rewrite queryString_eq.
  assert (encodePair (k, x) ∈ Strings.Split (Encode v) "&") as Hin.
  { rewrite Split_Encode.
    assert (encodePair (k, x) ∈ sortedKeys v ≫= encodeKey v) as Hin.
    { rewrite encoded_pairs. apply list_elem_of_fmap_2.
      by apply elem_of_pairs. }
    by destruct (sortedKeys v ≫= encodeKey v); [apply elem_of_nil in Hin|]. }
  rewrite Split_Join.
  - rewrite <-corrected_encodePair. apply list_elem_of_fmap_2.
    by rewrite Strings_Permutation.
  - intros Hnil%fmap_nil_inv. rewrite <-Strings_Permutation, Hnil in Hin.
    by apply elem_of_nil in Hin.
  - by apply sorted_segments_no.
Qed.

Lemma queryString_not_empty v k x : x ∈ index v k → queryString v ≠ "".
Proof.
  intros Hx%signed_pair_in_queryString Hq. rewrite Hq in Hx.
  apply list_elem_of_singleton in Hx. by destruct (signedText k).
Qed.

(** The query string depends on the pairs of the parameters only, not on
    their order. *)
Lemma queryString_pairs v1 v2 :
  pairs v1 ≡ₚ pairs v2 → queryString v1 = queryString v2.
Proof.
  intros Hp. rewrite !queryString_eq. do 2 f_equal.
  apply Strings_perm. rewrite !Split_Encode.
  assert (sortedKeys v1 ≫= encodeKey v1 ≡ₚ sortedKeys v2 ≫= encodeKey v2) as H.
  { by rewrite !encoded_pairs, Hp. }
  destruct (sortedKeys v1 ≫= encodeKey v1) as [|s1 l1],
    (sortedKeys v2 ≫= encodeKey v2) as [|s2 l2]; try done.
  - by apply Permutation_nil_cons in H.
  - symmetry in H. by apply Permutation_nil_cons in H.
Qed.

End QueryStringFacts.

(** ** The query of a signed request *)

Section SignedQuery.

Implicit Types (now : Time.Time) (c : Context) (sc : signingContext)
  (r : Request) (v m : Values) (k : string).

Lemma parseSegment_nonempty m s :
  (∀ k, m !! k ≠ Some []) → ∀ k, parseSegment m s !! k ≠ Some [].
Proof.
  intros Hm k. unfold parseSegment.
  destruct (Strings.Contains s ";"); [done|].
  destruct (s =? "")%string; [done|].
  destruct (Strings.Cut s "=") as [[key value] found].
  destruct (QueryUnescape key) as [key'|]; [|done].
  destruct (QueryUnescape value) as [value'|]; [|done].
  destruct (decide (key' = k)) as [->|Hne].
  - rewrite lookup_insert_eq. intros [= H]. by destruct (index m k).
  - by rewrite lookup_insert_ne.
Qed.

(** [ParseQuery] gives every key that it has at least one value. *)
Lemma ParseQuery_nonempty q k : ParseQuery q !! k ≠ Some [].
Proof.
  unfold ParseQuery, parseQuery. generalize (Strings.Split q "&").
  intros l. revert k.
  assert (∀ k, (∅ : Values) !! k ≠ Some []) as H by done.
  revert H. generalize (∅ : Values). induction l as [|s l IH]; intros m Hm.
  - done.
  - simpl. by apply IH, parseSegment_nonempty.
Qed.

Lemma Query_Encode_Set v k x k' :
  ParseQuery (Encode (Set_ v k x)) !! k'
  = if decide (k = k') then Some [x] else ParseQuery (Encode v) !! k'.
Proof.
  rewrite !ParseQuery_Encode. unfold Set_.
  destruct (decide (k = k')) as [->|Hne].
  - by rewrite lookup_insert_eq.
  - by rewrite lookup_insert_ne.
Qed.

Lemma Query_Encode_Query q k :
  ParseQuery (Encode (ParseQuery q)) !! k = ParseQuery q !! k.
Proof.
  rewrite ParseQuery_Encode. pose proof (ParseQuery_nonempty q k) as H.
  by destruct (ParseQuery q !! k) as [[|x xs]|].
Qed.

End SignedQuery.

(** ** The signature *)

Section SignatureFacts.

Lemma length_bigEndian k x : length (Sha256.bigEndian k x) = k.
Proof. induction k as [|k IH]; [done|]. simpl. by rewrite IH. Qed.

Lemma length_block hs p : length hs = 8%nat → length (Sha256.block hs p) = 8%nat.
Proof.
  intros H. do 9 (destruct hs as [|? hs]; try discriminate).
  unfold Sha256.block.
  by destruct (fold_left _ _ _) as [[[[[[[a b] c0] d] e] f] g] h].
Qed.

Lemma length_blocks n hs p :
  length hs = 8%nat → length (Sha256.blocks n hs p) = 8%nat.
Proof.
  revert hs p. induction n as [|n IH]; intros hs p H; [done|].
  simpl. by apply IH, length_block.
Qed.

(** A SHA-256 digest has 32 bytes. *)
Lemma length_Sum256 msg : length (Sha256.Sum256 msg) = 32%nat.
Proof.
  unfold Sha256.Sum256.
  pose proof (length_blocks (length (Sha256.pad msg) / 64) Sha256.init
                (Sha256.pad msg) eq_refl) as H.
  destruct (Sha256.blocks _ _ _) as [|? hs]; [done|].
  do 8 (destruct hs as [|? hs]; try discriminate).
  reflexivity.
Qed.

Lemma length_Hmac key msg : length (Hmac.Sum key msg) = 32%nat.
Proof. apply length_Sum256. Qed.

(** 32 bytes are 44 characters of base64. *)
Lemma length_EncodeToString_32 src :
  length src = 32%nat → String.length (Base64.EncodeToString src) = 44%nat.
Proof.
  intros H. do 33 (destruct src as [|? src]; try discriminate). reflexivity.
Qed.

Lemma Contains_Replace_old s old new :
  Strings.Contains new old = false →
  Strings.Contains (Strings.Replace s old new) old = false.
Proof.
  intros Hnew. induction s as [|c s IH]; [done|]. simpl.
  destruct (Ascii.eqb c old) eqn:Hc.
  - by rewrite Contains_app, Hnew, IH.
  - by rewrite Contains_cons, Hc, IH.
Qed.

End SignatureFacts.

(** ** The comparisons of sqs.go *)

(** The comparisons of [ReceiveMessages] on [int(wait.Seconds())] decide
    as on the whole seconds of [wait], whichever way [wait.Seconds()]
    rounds. *)
Lemma intSeconds_bounds away wait :
  (Time.intSeconds away wait <? 0) = (Z.quot wait Time.Second <? 0)
  ∧ (20 <? Time.intSeconds away wait) = (20 <? Z.quot wait Time.Second).
Proof.
  unfold Time.intSeconds. generalize (Z.quot wait Time.Second). intros sec.
  destruct away; [|done]. simpl andb.
  destruct (Z.leb_spec (2 ^ 24) (Z.abs sec)) as [H|H]; [|done].
  assert (2 ^ 24 = 16777216) as E by reflexivity. rewrite E in H.
  split.
  - destruct (Z.ltb_spec (sec + Z.sgn sec) 0), (Z.ltb_spec sec 0); lia.
  - destruct (Z.ltb_spec 20 (sec + Z.sgn sec)), (Z.ltb_spec 20 sec); lia.
Qed.

(** ** The claims *)

(** C1: for the credentials AKIDEXAMPLE/secret, the request GET
    sqs.example.com / with the query Action=ReceiveMessage and
    Version=2009-02-01, the default profile and the clock at
    2020-01-01T00:00:00Z, the string to sign is the one of the
    specification. *)
Theorem C1_example_string_to_sign :
  Query (URL exampleRequest)
    = {[ "Action" := ["ReceiveMessage"]; "Version" := ["2009-02-01"] ]}
  ∧ Time.FormatRFC3339 exampleTime = "2020-01-01T00:00:00Z"
  ∧ stringToSign exampleTime exampleContext defaultHTTPSigningContext
      exampleRequest
    = Ok ("GET" +:+ newline +:+ "sqs.example.com" +:+ newline +:+ "/"
          +:+ newline +:+
          "AWSAccessKeyId=AKIDEXAMPLE&Action=ReceiveMessage&SignatureMethod=HmacSHA256&SignatureVersion=2&Timestamp=2020-01-01T00%3A00%3A00Z&Version=2009-02-01").
Proof. split; [|split]; vm_compute; reflexivity. Qed.

(** C2, as the specification states it, fails on a value with a [+]: the
    value [a+b] of the parameter [k] is signed as [k=a%2Bb], and
    [k=a%20b] is not in the string to sign. *)
Lemma C2_plus_is_not_percent20 :
  index (Query (URL plusRequest)) "k" = ["a+b"]
  ∧ claimedText "a+b" = "a%20b"
  ∧ stringToSign exampleTime exampleContext purchaseSigningContext plusRequest
    = Ok ("GET" +:+ newline +:+ "sqs.example.com" +:+ newline +:+ "/"
          +:+ newline +:+
          "accessKey=AKIDEXAMPLE&k=a%2Bb&signatureMethod=HmacSHA256&signatureVersion=2")
  ∧ ¬ escapes_as_specified exampleTime exampleContext purchaseSigningContext
        plusRequest.
Proof.
  split; [vm_compute; reflexivity|].
  split; [vm_compute; reflexivity|].
  split; [vm_compute; reflexivity|].
  intros H. destruct (H "k" "a+b") as (params & Hg & _ & Hin).
  - vm_compute. by left.
  - vm_compute. intros Hk.
    repeat (apply elem_of_cons in Hk as [Hk|Hk]; [discriminate|]).
    by apply elem_of_nil in Hk.
  - rewrite getValues_purchase in Hg. injection Hg as <-.
    vm_compute in Hin.
    repeat (apply elem_of_cons in Hin as [Hin|Hin]; [discriminate|]).
    by apply elem_of_nil in Hin.
Qed.

(** C2, amended: every parameter of the request that [getValues] does not
    overwrite is in the string to sign as [key=value], where in the key
    and in the value a space is [%20], a [+] is [%2B], a [(] is [%28] and
    a [)] is [%29] (and every other byte is as [signedByte] says). *)
Theorem C2_escaping now c sc r k x :
  sc = defaultHTTPSigningContext ∨ sc = purchaseSigningContext →
  x ∈ index (Query (URL r)) k → k ∉ injected sc →
  (∃ params, getValues now sc c r = Ok params
     ∧ stringToSign now c sc r = Ok (signString r (queryString params))
     ∧ signedText k +:+ "=" +:+ signedText x
         ∈ Strings.Split (queryString params) "&")
  ∧ signedByte " " = "%20" ∧ signedByte "+" = "%2B"
  ∧ signedByte "(" = "%28" ∧ signedByte ")" = "%29".
Proof.
  intros Hsc Hx Hk. split; [|done].
  destruct Hsc as [-> | ->]; eexists; (split; [reflexivity|]);
    (split; [reflexivity|]); apply signed_pair_in_queryString;
    rewrite !index_Set_ne; try done;
    intros <-; apply Hk; unfold injected; simpl; set_solver.
Qed.

(** C2 on the value [a b+c(d)] of [escapedRequest], purchase profile: it
    is signed as [a%20b%2Bc%28d%29]. *)
Lemma C2_escaping_witness :
  index (Query (URL escapedRequest)) "k" = ["a b+c(d)"]
  ∧ (∃ params,
       getValues exampleTime purchaseSigningContext exampleContext
         escapedRequest = Ok params
       ∧ stringToSign exampleTime exampleContext purchaseSigningContext
           escapedRequest
         = Ok (signString escapedRequest (queryString params))
       ∧ "k=a%20b%2Bc%28d%29" ∈ Strings.Split (queryString params) "&").
Proof.
  split; [vm_compute; reflexivity|].
  apply (C2_escaping exampleTime exampleContext purchaseSigningContext
           escapedRequest "k" "a b+c(d)").
  - right. reflexivity.
  - vm_compute. left.
  - vm_compute. intros Hk.
    repeat (apply elem_of_cons in Hk as [Hk|Hk]; [discriminate|]).
    by apply elem_of_nil in Hk.
Defined.

(** C3: two requests with the same method, host and path whose query
    parameters are the same pairs in another order get the same string
    to sign and the same signature, under the same credentials, profile
    and clock. *)
Theorem C3_order_independent now c sc r1 r2 :
  Method r1 = Method r2 → Host (URL r1) = Host (URL r2) →
  Path (URL r1) = Path (URL r2) →
  pairs (Query (URL r1)) ≡ₚ pairs (Query (URL r2)) →
  stringToSign now c sc r1 = stringToSign now c sc r2
  ∧ signatureValue now c sc r1 = signatureValue now c sc r2.
Proof.
  intros Hm Hh Hp Hq.
  assert (stringToSign now c sc r1 = stringToSign now c sc r2) as Hs.
  { unfold stringToSign.
    destruct (decide (sc = defaultHTTPSigningContext)) as [->|H0].
    { rewrite !getValues_default. simpl. unfold signString.
      rewrite Hm, Hh, Hp. erewrite queryString_pairs; [reflexivity|].
      by repeat apply pairs_Set_perm. }
    destruct (decide (sc = purchaseSigningContext)) as [->|H1].
    { rewrite !getValues_purchase. simpl. unfold signString.
      rewrite Hm, Hh, Hp. erewrite queryString_pairs; [reflexivity|].
      by repeat apply pairs_Set_perm. }
    by rewrite !getValues_unknown. }
  split; [done|]. unfold signatureValue. by rewrite Hs.
Qed.

(** C3 on [b=2&a=1&a=0] and [a=0&b=2&a=1], which parse to different
    [Values]. *)
Lemma C3_order_independent_witness :
  Query (URL orderRequest1) ≠ Query (URL orderRequest2)
  ∧ stringToSign exampleTime exampleContext defaultHTTPSigningContext
      orderRequest1
    = stringToSign exampleTime exampleContext defaultHTTPSigningContext
        orderRequest2
  ∧ signatureValue exampleTime exampleContext defaultHTTPSigningContext
      orderRequest1
    = signatureValue exampleTime exampleContext defaultHTTPSigningContext
        orderRequest2.
Proof.
  split.
  - intros H. apply (f_equal (fun v => index v "a")) in H.
    vm_compute in H. discriminate.
  - apply (C3_order_independent exampleTime exampleContext
             defaultHTTPSigningContext orderRequest1 orderRequest2);
      try reflexivity.
    vm_compute. apply perm_swap.
Defined.

(** C4, as the specification states it, fails on a request whose method
    is not in upper case: [sign] writes the method as the request has
    it. *)
Lemma C4_method_is_not_upper_cased :
  stringToSign exampleTime exampleContext purchaseSigningContext lowerRequest
    = Ok ("get" +:+ newline +:+ "sqs.example.com" +:+ newline +:+ "/"
          +:+ newline +:+
          "Action=ReceiveMessage&accessKey=AKIDEXAMPLE&signatureMethod=HmacSHA256&signatureVersion=2")
  ∧ ¬ signs_upper_case_method exampleTime exampleContext
        purchaseSigningContext lowerRequest.
Proof.
  split; [vm_compute; reflexivity|].
  intros (params & Hg & Hs). unfold stringToSign in Hs.
  rewrite Hg in Hs. simpl in Hs. revert Hs.
  generalize (queryString params). intros qs Hs.
  vm_compute in Hs. discriminate.
Qed.

(** C4, amended: the string to sign is the method of the request as the
    request has it, the host, the path and the corrected query string,
    in this order, with one newline between two of them; the query
    string is not empty and holds no newline, so that the string does
    not end with a newline. *)
Theorem C4_string_to_sign_layout now c sc r :
  sc = defaultHTTPSigningContext ∨ sc = purchaseSigningContext →
  ∃ params, getValues now sc c r = Ok params
    ∧ stringToSign now c sc r
      = Ok (Strings.Join [Method r; Host (URL r); Path (URL r);
                          queryString params] newline)
    ∧ Strings.Contains (queryString params) "010" = false
    ∧ queryString params ≠ "".
Proof.
  intros [-> | ->]; eexists; (split; [reflexivity|]);
    (split; [reflexivity|]);
    (split; [by apply queryString_Contains|]).
  - apply (queryString_not_empty _ "SignatureMethod" "HmacSHA256").
    rewrite index_Set_eq. by left.
  - apply (queryString_not_empty _ "signatureMethod" "HmacSHA256").
    rewrite index_Set_eq. by left.
Qed.

(** C4 on [lowerRequest], purchase profile. *)
Lemma C4_string_to_sign_layout_witness :
  ∃ params,
    getValues exampleTime purchaseSigningContext exampleContext lowerRequest
    = Ok params
    ∧ stringToSign exampleTime exampleContext purchaseSigningContext
        lowerRequest
      = Ok (Strings.Join ["get"; "sqs.example.com"; "/";
                          queryString params] newline)
    ∧ Strings.Contains (queryString params) "010" = false
    ∧ queryString params ≠ "".
Proof.
  apply (C4_string_to_sign_layout exampleTime exampleContext
           purchaseSigningContext lowerRequest).
  right. reflexivity.
Defined.

(** C5, as the specification states it, fails for the purchase profile on
    a request that has a field with an upper-case name: [sign] keeps
    it. *)
Lemma C5_purchase_keeps_upper_case_field :
  (∃ r', sign exampleTime exampleContext purchaseSigningContext
           stampedRequest = Ok r'
         ∧ Query (URL r') !! "Timestamp" = Some ["2020-01-01T00:00:00Z"])
  ∧ ¬ purchase_has_no_upper_case_field exampleTime exampleContext
        stampedRequest.
Proof.
  split.
  - eexists. split; [reflexivity|]. vm_compute. reflexivity.
  - intros H.
    assert ("Timestamp" ∈ upperCaseFields) as Hin by repeat constructor.
    specialize (H _ eq_refl "Timestamp" Hin).
    vm_compute in H. discriminate H.
Qed.

(** C5, amended: after signing with the default profile the query of the
    request has AWSAccessKeyId, SignatureVersion=2,
    SignatureMethod=HmacSHA256 and Signature; after signing with the
    purchase profile it has accessKey, signatureVersion=2,
    signatureMethod=HmacSHA256 and signature, and [sign] has added none
    of the fields with upper-case names: each of them is in the query as
    it was in the request. *)
Theorem C5_profile_fields now c r :
  (∃ r' sig, sign now c defaultHTTPSigningContext r = Ok r'
     ∧ signatureValue now c defaultHTTPSigningContext r = Ok sig
     ∧ Query (URL r') !! "AWSAccessKeyId" = Some [keyId c]
     ∧ Query (URL r') !! "SignatureVersion" = Some ["2"]
     ∧ Query (URL r') !! "SignatureMethod" = Some ["HmacSHA256"]
     ∧ Query (URL r') !! "Signature" = Some [sig])
  ∧ (∃ r' sig, sign now c purchaseSigningContext r = Ok r'
     ∧ signatureValue now c purchaseSigningContext r = Ok sig
     ∧ Query (URL r') !! "accessKey" = Some [keyId c]
     ∧ Query (URL r') !! "signatureVersion" = Some ["2"]
     ∧ Query (URL r') !! "signatureMethod" = Some ["HmacSHA256"]
     ∧ Query (URL r') !! "signature" = Some [sig]
     ∧ ∀ k, k ∈ upperCaseFields → Query (URL r') !! k = Query (URL r) !! k).
Proof.
  split.
  - do 2 eexists. split; [apply sign_default|]. split; [reflexivity|].
    unfold Query. cbn [URL RawQuery]. rewrite !Query_Encode_Set. done.
  - do 2 eexists. split; [apply sign_purchase|]. split; [reflexivity|].
    unfold Query. cbn [URL RawQuery]. rewrite !Query_Encode_Set.
    repeat (split; [done|]).
    intros k Hk. rewrite !Query_Encode_Set, Query_Encode_Query.
    unfold upperCaseFields in Hk.
    repeat (apply elem_of_cons in Hk as [->|Hk]; [done|]).
    by apply elem_of_nil in Hk.
Qed.

(** C5 on [stampedRequest], purchase profile: its [Timestamp] is in the
    signed request as it was. *)
Lemma C5_profile_fields_witness :
  ∃ r', sign exampleTime exampleContext purchaseSigningContext stampedRequest
        = Ok r'
    ∧ Query (URL r') !! "accessKey" = Some ["AKIDEXAMPLE"]
    ∧ Query (URL r') !! "Timestamp" = Query (URL stampedRequest) !! "Timestamp".
Proof.
  destruct (C5_profile_fields exampleTime exampleContext stampedRequest)
    as [_ (r' & sig & Hs & _ & Hk & _ & _ & _ & Hup)].
  exists r'. split; [exact Hs|]. split; [exact Hk|].
  apply Hup. unfold upperCaseFields. repeat constructor.
Defined.

(** C6: with one of the two profiles, default or purchase, [sign] does
    not panic and returns a signed request: the query of the request it
    returns has, under the signature field of the profile, one value,
    the base64 text of the HMAC-SHA256, under the secret key of the
    context, of the string to sign.  Neither [getValues] nor
    [addSignature] reaches its panic with such a profile. *)
Theorem C6_sign_never_fails now c sc r :
  sc = defaultHTTPSigningContext ∨ sc = purchaseSigningContext →
  (∃ r' s, sign now c sc r = Ok r'
     ∧ stringToSign now c sc r = Ok s
     ∧ Query (URL r') !! signatureField sc
       = Some [Base64.EncodeToString (Hmac.Sum (bytes (key c)) (bytes s))])
  ∧ (∀ msg, sign now c sc r ≠ Panic msg)
  ∧ (∀ msg, getValues now sc c r ≠ Panic msg)
  ∧ (∀ v sig msg, addSignature sc v sig ≠ Panic msg).
Proof.
  intros [-> | ->]; (split; [|done]); do 2 eexists.
  - split; [apply sign_default|]. split; [reflexivity|].
    unfold Query. cbn [URL RawQuery]. by rewrite Query_Encode_Set.
  - split; [apply sign_purchase|]. split; [reflexivity|].
    unfold Query. cbn [URL RawQuery]. by rewrite Query_Encode_Set.
Qed.

(** C6 on [exampleRequest], purchase profile: the request has no
    signature before the call and has it after. *)
Lemma C6_sign_never_fails_witness :
  Query (URL exampleRequest) !! "signature" = None
  ∧ (∃ r' s,
       sign exampleTime exampleContext purchaseSigningContext exampleRequest
         = Ok r'
       ∧ stringToSign exampleTime exampleContext purchaseSigningContext
           exampleRequest = Ok s
       ∧ Query (URL r') !! "signature"
         = Some [Base64.EncodeToString
                   (Hmac.Sum (bytes (key exampleContext)) (bytes s))])
  ∧ (∀ msg, sign exampleTime exampleContext purchaseSigningContext
              exampleRequest ≠ Panic msg).
Proof.
  split; [vm_compute; reflexivity|].
  destruct (C6_sign_never_fails exampleTime exampleContext
              purchaseSigningContext exampleRequest) as (Hs & Hp & _).
  - right. reflexivity.
  - split; [exact Hs | exact Hp].
Defined.

(** C7: with the purchase profile the signed request and the signature
    do not depend on the clock: two calls on the same credentials and
    request give the same result. *)
Theorem C7_purchase_deterministic now1 now2 c r :
  sign now1 c purchaseSigningContext r = sign now2 c purchaseSigningContext r
  ∧ signatureValue now1 c purchaseSigningContext r
    = signatureValue now2 c purchaseSigningContext r.
Proof.
  rewrite !sign_eq. unfold signatureValue, stringToSign.
  by rewrite !getValues_purchase.
Qed.

(** C8: signing a request whose query has the signature field of the
    profile replaces the field: after the call the query has one value
    under this name, the new signature. *)
Theorem C8_resign_overwrites now c sc r :
  sc = defaultHTTPSigningContext ∨ sc = purchaseSigningContext →
  is_Some (Query (URL r) !! signatureField sc) →
  ∃ r' sig, sign now c sc r = Ok r'
    ∧ signatureValue now c sc r = Ok sig
    ∧ Query (URL r') !! signatureField sc = Some [sig].
Proof.
  intros [-> | ->] _; do 2 eexists.
  - split; [apply sign_default|]. split; [reflexivity|].
    unfold Query. cbn [URL RawQuery]. by rewrite Query_Encode_Set.
  - split; [apply sign_purchase|]. split; [reflexivity|].
    unfold Query. cbn [URL RawQuery]. by rewrite Query_Encode_Set.
Qed.

(** C8 on the signed [exampleRequest], signed again one second later. *)
Lemma C8_resign_overwrites_witness :
  sign exampleTime exampleContext defaultHTTPSigningContext exampleRequest
    = Ok signedRequest
  ∧ ∃ r' sig,
      sign laterTime exampleContext defaultHTTPSigningContext signedRequest
        = Ok r'
      ∧ signatureValue laterTime exampleContext defaultHTTPSigningContext
          signedRequest = Ok sig
      ∧ Query (URL r') !! "Signature" = Some [sig].
Proof.
  split; [vm_compute; reflexivity|].
  apply (C8_resign_overwrites laterTime exampleContext
           defaultHTTPSigningContext signedRequest).
  - left. reflexivity.
  - vm_compute. eexists. reflexivity.
Defined.

(** C9: [sign] changes the query string of the request and nothing else:
    the method, the host and the path are the ones of the request.  The
    context is the receiver of [sign], passed by value: [sign] returns the
    request and cannot change the credentials of its caller. *)
Theorem C9_sign_frame now c sc r r' :
  sign now c sc r = Ok r' →
  Method r' = Method r ∧ Host (URL r') = Host (URL r)
  ∧ Path (URL r') = Path (URL r).
Proof.
  unfold sign. destruct (getValues now sc c r) as [params|]; [|done]. simpl.
  destruct (addSignature sc params _) as [params'|]; [|done]. simpl.
  by intros [= <-].
Qed.

(** C9 on [exampleRequest], whose query string does change. *)
Lemma C9_sign_frame_witness :
  Method signedRequest = Method exampleRequest
  ∧ Host (URL signedRequest) = Host (URL exampleRequest)
  ∧ Path (URL signedRequest) = Path (URL exampleRequest).
Proof.
  apply (C9_sign_frame exampleTime exampleContext defaultHTTPSigningContext
           exampleRequest signedRequest).
  vm_compute. reflexivity.
Defined.



(** ** More on the signer *)

(** [sign] keeps the parameters that it does not set: a key that is
    neither one of [getValues] nor the signature field has after the call
    the values that it had. *)
Theorem sign_keeps_parameters now c sc r r' k :
  sign now c sc r = Ok r' →
  k ∉ injected sc → k ≠ signatureField sc →
  Query (URL r') !! k = Query (URL r) !! k.
Proof.
  intros Hs Hk Hsig.
  destruct (decide (sc = defaultHTTPSigningContext)) as [->|H0];
    [|destruct (decide (sc = purchaseSigningContext)) as [->|H1]].
  - rewrite sign_default in Hs. injection Hs as <-.
    unfold Query. cbn [URL RawQuery].
    rewrite !Query_Encode_Set, Query_Encode_Query.
    repeat (case_decide; [subst k; exfalso;
                          (by apply Hsig) || (apply Hk; set_solver)|]).
    done.
  - rewrite sign_purchase in Hs. injection Hs as <-.
    unfold Query. cbn [URL RawQuery].
    rewrite !Query_Encode_Set, Query_Encode_Query.
    repeat (case_decide; [subst k; exfalso;
                          (by apply Hsig) || (apply Hk; set_solver)|]).
    done.
  - unfold sign in Hs. by rewrite getValues_unknown in Hs.
Qed.

(** [sign_keeps_parameters] on the [Action] of [exampleRequest]. *)
Lemma sign_keeps_parameters_witness :
  Query (URL signedRequest) !! "Action"
  = Query (URL exampleRequest) !! "Action".
Proof.
  apply (sign_keeps_parameters exampleTime exampleContext
           defaultHTTPSigningContext exampleRequest signedRequest "Action").
  - vm_compute. reflexivity.
  - vm_compute. intros Hk.
    repeat (apply elem_of_cons in Hk as [Hk|Hk]; [discriminate|]).
    by apply elem_of_nil in Hk.
  - discriminate.
Defined.

(** The query string that is signed has no [+], no [(] and no [)]: the
    three replacements of [sign] leave none. *)
Theorem queryString_no_plus_no_parenthesis params :
  Strings.Contains (queryString params) "+" = false
  ∧ Strings.Contains (queryString params) "(" = false
  ∧ Strings.Contains (queryString params) ")" = false.
Proof.
  split; [|split; by apply queryString_Contains].
  unfold queryString.
  do 2 (apply Contains_Replace; [|done]). by apply Contains_Replace_old.
Qed.

(** The signature is 44 characters of base64, for every key and every
    string to sign. *)
Theorem signature_length c s : String.length (signature c s) = 44%nat.
Proof. apply length_EncodeToString_32, length_Hmac. Qed.

(** ** The requests of the service calls *)

Section RequestFacts.

Implicit Types (v : Values) (k s t : string).

(** What [ParseQuery] reads from the encoding of [v] is [v], when no key
    of [v] has an empty list of values. *)
Lemma ParseQuery_Encode_eq v :
  (∀ k, v !! k ≠ Some []) → ParseQuery (Encode v) = v.
Proof.
  intros H. apply map_eq. intros k. rewrite ParseQuery_Encode.
  specialize (H k). by destruct (v !! k) as [[|x xs]|].
Qed.

(** [Encode] on a map given by the list of its keys in increasing order,
    each with its values. *)
Lemma Encode_list_to_map (l : list (string * list string)) :
  Sorted String.le l.*1 → NoDup l.*1 →
  Encode (list_to_map l)
  = Strings.Join
      (l ≫= fun kx => (fun x => encodePair (kx.1, x)) <$> kx.2) "&".
Proof.
  intros Hs Hn. unfold Encode. f_equal.
  assert (sortedKeys (list_to_map l) = l.*1) as ->.
  { symmetry. apply Strings_unique; [done|]. by rewrite map_to_list_to_map. }
  assert (Forall (fun kx => index (list_to_map l) kx.1 = kx.2) l) as H.
  { apply Forall_forall. intros [k xs] Hin. unfold index. simpl.
    by rewrite (proj1 (elem_of_list_to_map l k xs Hn) Hin). }
  revert H. generalize (list_to_map l : Values). clear Hs Hn. intros m H.
  induction H as [|[k xs] l' Hk Hl IH]; [done|].
  rewrite fmap_cons, !bind_cons, IH. f_equal.
  unfold encodeKey. simpl in *. by rewrite Hk.
Qed.

Lemma QueryEscape_uint d :
  QueryEscape (NilEmpty.string_of_uint d) = NilEmpty.string_of_uint d.
Proof. induction d; simpl; [done|by rewrite IHd..]. Qed.

(** The decimal text of an integer is not changed by [QueryEscape]. *)
Lemma QueryEscape_FormatInt n :
  QueryEscape (Strconv.FormatInt n) = Strconv.FormatInt n.
Proof.
  unfold Strconv.FormatInt.
  destruct (Z.to_int n) as [d|d]; simpl;
    (destruct d; [done|simpl; by rewrite QueryEscape_uint..]).
Qed.

Lemma HasPrefix_app t p : Strings.HasPrefix (p +:+ t) p = true.
Proof.
  induction p as [|c p IH]; [by destruct t|].
  rewrite append_cons. simpl. by rewrite Ascii.eqb_refl, IH.
Qed.

Lemma HasPrefix_inv s p :
  Strings.HasPrefix s p = true → ∃ t, s = p +:+ t.
Proof.
  revert s. induction p as [|c p IH]; intros s H.
  - by exists s.
  - destruct s as [|d s]; [done|]. simpl in H.
    apply andb_true_iff in H as [->%Ascii.eqb_eq [t ->]%IH]. by exists t.
Qed.

Lemma sliceFrom_app t p : sliceFrom (p +:+ t) (String.length p) = Ok t.
Proof. induction p as [|c p IH]; [by destruct t|]. by rewrite append_cons. Qed.

End RequestFacts.

(** Two maps built by insertions under fixed keys are equal. *)
Ltac params_eq :=
  apply map_eq; intros ?k; unfold Set_, Add, index;
  rewrite ?list_to_map_cons, ?list_to_map_nil;
  repeat (rewrite lookup_insert; case_decide; [subst; by simplify_map_eq|]);
  by simplify_map_eq.

(** A list of fixed keys is in increasing order, and without a key twice. *)
Ltac sorted_keys := repeat (constructor; try done).
Ltac distinct_keys :=
  apply NoDup_ListNoDup; repeat constructor; simpl; intuition discriminate.

(** The query string of a caller whose parameters are [params]: the
    encoding of the list [l] of its keys in increasing order. *)
Ltac encode_as l :=
  match goal with
  | |- Encode ?params = _ =>
      replace params with (list_to_map l : Values) by params_eq;
      rewrite Encode_list_to_map; [reflexivity|sorted_keys|distinct_keys]
  end.

(** No key of a map built by [Set] under fixed keys has an empty list. *)
Ltac no_empty_values :=
  intros ?k; unfold Set_;
  repeat (rewrite lookup_insert; case_decide; [done|]);
  by rewrite lookup_empty.

(** Two results of one call of the world are the same result. *)
Ltac same_exchange :=
  simplify_eq;
  repeat match goal with
  | H1 : ?f = inr ?a, H2 : ?f = inr ?b |- _ =>
      assert (b = a) by congruence; subst b; clear H2
  | H1 : ?f = Ok ?a, H2 : ?f = Ok ?b |- _ =>
      assert (b = a) by congruence; subst b; clear H2
  | H1 : ?f = inl _, H2 : ?f = inr _ |- _ => congruence
  end;
  try done.

Section QueryStrings.

Implicit Types (s t h : string).

Lemma Encode_ReceiveMessages max seconds :
  Encode (Set_ (Set_ (Set_ (Set_ (Set_ ∅
            "Action" "ReceiveMessage")
            "MaxNumberOfMessages" (Strconv.FormatInt max))
            "VisibilityTimeout" "5")
            "WaitTimeSeconds" (Strconv.FormatInt seconds))
            "Version" "2009-02-01")
  = "Action=ReceiveMessage&MaxNumberOfMessages=" +:+ Strconv.FormatInt max
    +:+ "&Version=2009-02-01&VisibilityTimeout=5&WaitTimeSeconds="
    +:+ Strconv.FormatInt seconds.
Proof.
  rewrite <-(QueryEscape_FormatInt max) at 2.
  rewrite <-(QueryEscape_FormatInt seconds) at 2.
  encode_as [("Action", ["ReceiveMessage"]);
             ("MaxNumberOfMessages", [Strconv.FormatInt max]);
             ("Version", ["2009-02-01"]); ("VisibilityTimeout", ["5"]);
             ("WaitTimeSeconds", [Strconv.FormatInt seconds])].
Qed.

Lemma Encode_DeleteMessage h :
  Encode (Set_ (Set_ (Set_ ∅ "Action" "DeleteMessage") "ReceiptHandle" h)
            "Version" "2009-02-01")
  = "Action=DeleteMessage&ReceiptHandle=" +:+ QueryEscape h
    +:+ "&Version=2009-02-01".
Proof.
  encode_as [("Action", ["DeleteMessage"]); ("ReceiptHandle", [h]);
             ("Version", ["2009-02-01"])].
Qed.

Lemma Encode_Publish a body :
  Encode (Set_ (Set_ (Set_ ∅ "TopicArn" a) "Message" body) "Action" "Publish")
  = "Action=Publish&Message=" +:+ QueryEscape body +:+ "&TopicArn="
    +:+ QueryEscape a.
Proof.
  encode_as [("Action", ["Publish"]); ("Message", [body]); ("TopicArn", [a])].
Qed.

Lemma Encode_GetTransactionStatus t :
  Encode (Set_ (Set_ (Set_ ∅ "Action" "GetTransactionStatus")
            "TransactionId" t) "Version" "2008-09-17")
  = "Action=GetTransactionStatus&TransactionId=" +:+ QueryEscape t
    +:+ "&Version=2008-09-17".
Proof.
  encode_as [("Action", ["GetTransactionStatus"]); ("TransactionId", [t]);
             ("Version", ["2008-09-17"])].
Qed.

Lemma Encode_SettleTransaction t value :
  Encode (Set_ (Set_ (Set_ (Set_ (Set_ ∅
            "Action" "Settle")
            "ReserveTransactionId" t)
            "TransactionAmount.CurrencyCode" "USD")
            "TransactionAmount.Value" value)
            "Version" "2008-09-17")
  = "Action=Settle&ReserveTransactionId=" +:+ QueryEscape t
    +:+ "&TransactionAmount.CurrencyCode=USD&TransactionAmount.Value="
    +:+ QueryEscape value +:+ "&Version=2008-09-17".
Proof.
  encode_as [("Action", ["Settle"]); ("ReserveTransactionId", [t]);
             ("TransactionAmount.CurrencyCode", ["USD"]);
             ("TransactionAmount.Value", [value]);
             ("Version", ["2008-09-17"])].
Qed.

Lemma Encode_VerifyPaymentParams endpoint parameters :
  Encode (Set_ (Set_ (Set_ (Set_ ∅
            "Action" "VerifySignature")
            "UrlEndPoint" endpoint)
            "HttpParameters" parameters)
            "Version" "2008-09-17")
  = "Action=VerifySignature&HttpParameters=" +:+ QueryEscape parameters
    +:+ "&UrlEndPoint=" +:+ QueryEscape endpoint +:+ "&Version=2008-09-17".
Proof.
  encode_as [("Action", ["VerifySignature"]); ("HttpParameters", [parameters]);
             ("UrlEndPoint", [endpoint]); ("Version", ["2008-09-17"])].
Qed.

Lemma Encode_CreatePurchaseURL store item :
  Encode
    (Add
       (if negb (String.eqb (ReferenceId item) "")
        then Set_ (Set_ (Set_ (Set_ (Set_ (Set_ ∅
                    "description" (Description item))
                    "amount" (Price item))
                    "cobrandingStyle" "logo")
                    "immediateReturn" "1")
                    "processImmediate" "0")
               "referenceId" (ReferenceId item)
        else Set_ (Set_ (Set_ (Set_ (Set_ ∅
                    "description" (Description item))
                    "amount" (Price item))
                    "cobrandingStyle" "logo")
                    "immediateReturn" "1")
                    "processImmediate" "0")
       "returnURL" (ReturnURL store))
  = PurchaseQuery store item.
Proof.
  unfold PurchaseQuery. destruct (ReferenceId item) as [|a ref] eqn:E.
  - cbn [String.eqb negb].
    encode_as [("amount", [Price item]); ("cobrandingStyle", ["logo"]);
               ("description", [Description item]);
               ("immediateReturn", ["1"]); ("processImmediate", ["0"]);
               ("returnURL", [ReturnURL store])].
  - cbn [String.eqb negb].
    encode_as [("amount", [Price item]); ("cobrandingStyle", ["logo"]);
               ("description", [Description item]);
               ("immediateReturn", ["1"]); ("processImmediate", ["0"]);
               ("referenceId", [String a ref]);
               ("returnURL", [ReturnURL store])].
Qed.

End QueryStrings.

(** ** The service calls of sqs.go and sns.go *)

Section QueueAndTopic.

Lemma SignRequest_Ok now c r : ∃ r', SignRequest now c r = Ok r'.
Proof. by eexists. Qed.

(** Below [2^24] whole seconds [int(wait.Seconds())] is exact. *)
Lemma intSeconds_small away wait :
  Z.abs (Z.quot wait Time.Second) < 2 ^ 24 →
  Time.intSeconds away wait = Z.quot wait Time.Second.
Proof.
  intros H. unfold Time.intSeconds.
  destruct (Z.leb_spec (2 ^ 24) (Z.abs (Z.quot wait Time.Second))); [lia|].
  by rewrite andb_false_r.
Qed.

End QueueAndTopic.

(** With [max] from 0 to 10 and [wait] from 0 to 20 whole seconds,
    [ReceiveMessages] asks [http.NewRequest] for a GET of the URL of the
    queue followed by
    [/?Action=ReceiveMessage&MaxNumberOfMessages=max&Version=2009-02-01&VisibilityTimeout=5&WaitTimeSeconds=seconds],
    the whole seconds of [wait] in decimal.  When this fails with [err],
    the call returns [Failed to create request: err] and no message, and
    nothing is signed or sent; otherwise the request is signed with the
    default profile and sent. *)
Theorem ReceiveMessages_request now away NewRequest Do Decode q c max wait :
  0 ≤ Z.quot wait Time.Second ≤ 20 → 0 ≤ max ≤ 10 →
  match NewRequest "GET"
          (ReceiveMessagesURL q max (Z.quot wait Time.Second)) with
  | inl err =>
      ReceiveMessages now away NewRequest Do Decode q c max wait
      = ([], Ok ([], Some ("Failed to create request: " +:+ err)))
  | inr req =>
      ∃ req', SignRequest now c req = Ok req'
        ∧ (ReceiveMessages now away NewRequest Do Decode q c max wait).1
          = [Signed req'; Sent req']
  end.
Proof.
  intros Hw Hm. unfold ReceiveMessages.
  rewrite intSeconds_small by (rewrite Z.abs_eq; lia).
  destruct (Z.ltb_spec (Z.quot wait Time.Second) 0); [lia|].
  destruct (Z.ltb_spec 20 (Z.quot wait Time.Second)); [lia|].
  destruct (Z.ltb_spec max 0); [lia|].
  destruct (Z.ltb_spec 10 max); [lia|]. simpl orb. cbv iota zeta.
  rewrite Encode_ReceiveMessages.
  change (url q +:+ "/?" +:+ _)
    with (ReceiveMessagesURL q max (Z.quot wait Time.Second)).
  destruct (NewRequest _ _) as [err|req]; [done|].
  destruct (SignRequest_Ok now c req) as [req' Hs]. rewrite Hs.
  exists req'. split; [done|].
  destruct (Do req') as [err|body]; [done|]. by destruct (Decode body).
Qed.

(** [ReceiveMessages_request] on 10 messages and 20.5 seconds. *)
Lemma ReceiveMessages_request_witness :
  ReceiveMessagesURL exampleQueue 10 20
  = "https://sqs.example.com/?Action=ReceiveMessage&MaxNumberOfMessages=10&Version=2009-02-01&VisibilityTimeout=5&WaitTimeSeconds=20"
  ∧ ∃ req', SignRequest exampleTime exampleContext
              {| Method := "GET";
                 URL := {| Host := "aws.example.com"; Path := "/";
                           RawQuery := "Action=ReceiveMessage&MaxNumberOfMessages=10&Version=2009-02-01&VisibilityTimeout=5&WaitTimeSeconds=20" |} |}
            = Ok req'
      ∧ (ReceiveMessages exampleTime true queryNewRequest exampleDo
           exampleDecode exampleQueue exampleContext 10 20500000000).1
        = [Signed req'; Sent req'].
Proof.
  split; [vm_compute; reflexivity|].
  apply (ReceiveMessages_request exampleTime true queryNewRequest exampleDo
           exampleDecode exampleQueue exampleContext 10 20500000000).
  - split; vm_compute; discriminate.
  - split; vm_compute; discriminate.
Defined.

(** The query of the request of [DeleteMessage] is
    [Action=DeleteMessage&ReceiptHandle=h&Version=2009-02-01] with the
    receipt handle [h] escaped, and parsing it gives these three
    parameters, the handle as it was given, whatever bytes it has.
    [DeleteMessage] asks [http.NewRequest] for a GET of the URL of the
    queue, [/?] and this query; a failure [err] is returned as
    [Failed to create request: err] with nothing signed or sent, and
    otherwise the request is signed with the default profile and sent. *)
Theorem DeleteMessage_request now NewRequest Do q c receiptHandle :
  ParseQuery (DeleteMessageQuery receiptHandle)
  = {[ "Action" := ["DeleteMessage"]; "ReceiptHandle" := [receiptHandle];
       "Version" := ["2009-02-01"] ]}
  ∧ match NewRequest "GET"
            (url q +:+ "/?" +:+ DeleteMessageQuery receiptHandle) with
    | inl err =>
        DeleteMessage now NewRequest Do q c receiptHandle
        = ([], Ok (Some ("Failed to create request: " +:+ err)))
    | inr req =>
        ∃ req', SignRequest now c req = Ok req'
          ∧ (DeleteMessage now NewRequest Do q c receiptHandle).1
            = [Signed req'; Sent req']
    end.
Proof.
  split.
  - unfold DeleteMessageQuery. rewrite <-Encode_DeleteMessage.
    rewrite ParseQuery_Encode_eq by no_empty_values. params_eq.
  - unfold DeleteMessage. cbv zeta. rewrite Encode_DeleteMessage.
    fold (DeleteMessageQuery receiptHandle).
    destruct (NewRequest _ _) as [err|req]; [done|].
    destruct (SignRequest_Ok now c req) as [req' Hs]. rewrite Hs.
    exists req'. split; [done|]. by destruct (Do req').
Qed.

(** [DeleteMessage] returns nil exactly when the request could be built
    and the exchange completed: it does not read the response, so what
    the service answered does not matter. *)
Theorem DeleteMessage_nil_iff now NewRequest Do q c receiptHandle :
  (DeleteMessage now NewRequest Do q c receiptHandle).2 = Ok None
  ↔ ∃ req req' body,
      NewRequest "GET" (url q +:+ "/?" +:+ DeleteMessageQuery receiptHandle)
      = inr req
      ∧ SignRequest now c req = Ok req' ∧ Do req' = inr body.
Proof.
  unfold DeleteMessage. cbv zeta. rewrite Encode_DeleteMessage.
  fold (DeleteMessageQuery receiptHandle).
  destruct (NewRequest _ _) as [err|req].
  { split; [done|]. by intros (? & ? & ? & ? & _). }
  destruct (SignRequest_Ok now c req) as [req' Hs]. rewrite Hs.
  destruct (Do req') as [err|body] eqn:HDo; simpl.
  - split; [done|]. intros (? & r2 & ? & [= <-] & Hs' & HDo').
    rewrite Hs in Hs'. injection Hs' as <-. congruence.
  - split; [|done]. intros _. by exists req, req', body.
Qed.

(** The query of the request of [Publish] is
    [Action=Publish&Message=body&TopicArn=arn] with the message and the
    ARN escaped, and parsing it gives these three parameters, the message
    as it was given.  [Publish] asks [http.NewRequest] for a GET of
    [https://], the host of the topic, [/?] and this query; a failure
    [err] is returned as [Failed to create request: err] with nothing
    signed or sent, and otherwise the request is signed with the default
    profile and sent. *)
Theorem Publish_request now NewRequest Do DecodePublish t c body :
  ParseQuery (PublishQuery t body)
  = {[ "Action" := ["Publish"]; "Message" := [body];
       "TopicArn" := [arn t] ]}
  ∧ match NewRequest "GET"
            ("https://" +:+ host t +:+ "/?" +:+ PublishQuery t body) with
    | inl err =>
        Publish now NewRequest Do DecodePublish t c body
        = ([], Ok ("", "", Some ("Failed to create request: " +:+ err)))
    | inr req =>
        ∃ req', SignRequest now c req = Ok req'
          ∧ (Publish now NewRequest Do DecodePublish t c body).1
            = [Signed req'; Sent req']
    end.
Proof.
  split.
  - unfold PublishQuery. rewrite <-Encode_Publish.
    rewrite ParseQuery_Encode_eq by no_empty_values. params_eq.
  - unfold Publish. cbv zeta. rewrite Encode_Publish.
    fold (PublishQuery t body).
    destruct (NewRequest _ _) as [err|req]; [done|].
    destruct (SignRequest_Ok now c req) as [req' Hs]. rewrite Hs.
    exists req'. split; [done|].
    destruct (Do req') as [err|b]; [done|]. by destruct (DecodePublish b).
Qed.

(** [Publish] returns the two identifiers of the decoded response, with a
    nil error, exactly when the request could be built, the exchange
    completed and the response could be decoded; with an error both
    identifiers are empty. *)
Theorem Publish_result now NewRequest Do DecodePublish t c body :
  (∀ messageId requestId,
     (Publish now NewRequest Do DecodePublish t c body).2
     = Ok (messageId, requestId, None)
     ↔ ∃ req req' b response,
         NewRequest "GET"
           ("https://" +:+ host t +:+ "/?" +:+ PublishQuery t body) = inr req
         ∧ SignRequest now c req = Ok req' ∧ Do req' = inr b
         ∧ DecodePublish b = inr response
         ∧ messageId = pMessageId response
         ∧ requestId = pRequestId response)
  ∧ (∀ messageId requestId err,
       (Publish now NewRequest Do DecodePublish t c body).2
       = Ok (messageId, requestId, Some err) →
       messageId = "" ∧ requestId = "").
Proof.
  unfold Publish. cbv zeta. rewrite Encode_Publish.
  fold (PublishQuery t body).
  destruct (NewRequest _ _) as [err|req].
  { split; [|by intros ??? [= <- <- _]].
    intros ??. split; [done|]. by intros (? & ? & ? & ? & ? & _). }
  destruct (SignRequest_Ok now c req) as [req' Hs]. rewrite Hs.
  destruct (Do req') as [err|b] eqn:HDo.
  { split; [|by intros ??? [= <- <- _]].
    intros ??. split; [done|].
    intros (? & r2 & ? & ? & [= <-] & Hs' & HDo' & _).
    rewrite Hs in Hs'. injection Hs' as <-. congruence. }
  destruct (DecodePublish b) as [err|response] eqn:HDe.
  { split; [|by intros ??? [= <- <- _]].
    intros ??. split; [done|].
    intros (? & r2 & b2 & ? & [= <-] & Hs' & HDo' & HDe' & _).
    rewrite Hs in Hs'. injection Hs' as <-. congruence. }
  split; [|done]. intros ??. simpl. split.
  - intros [= <- <-]. by exists req, req', b, response.
  - intros (? & r2 & b2 & resp2 & [= <-] & Hs' & HDo' & HDe' & -> & ->).
    rewrite Hs in Hs'. injection Hs' as <-. congruence.
Qed.

(** ** The service calls of simplepay.go *)

Section Payments.

Lemma ItemParameters_eq store item :
  Add
    (if negb (String.eqb (ReferenceId item) "")
     then Set_ (Set_ (Set_ (Set_ (Set_ (Set_ ∅
                 "description" (Description item))
                 "amount" (Price item))
                 "cobrandingStyle" "logo")
                 "immediateReturn" "1")
                 "processImmediate" "0")
            "referenceId" (ReferenceId item)
     else Set_ (Set_ (Set_ (Set_ (Set_ ∅
                 "description" (Description item))
                 "amount" (Price item))
                 "cobrandingStyle" "logo")
                 "immediateReturn" "1")
                 "processImmediate" "0")
    "returnURL" (ReturnURL store)
  = ItemParameters store item.
Proof.
  unfold ItemParameters.
  destruct (ReferenceId item) as [|a ref]; cbn [String.eqb negb]; params_eq.
Qed.

Lemma ItemParameters_nonempty store item k :
  ItemParameters store item !! k ≠ Some [].
Proof.
  unfold ItemParameters.
  destruct (ReferenceId item) as [|a ref]; cbn [String.eqb];
    repeat (rewrite lookup_insert; case_decide; [done|]);
    rewrite lookup_singleton; by case_decide.
Qed.

Lemma ParseQuery_PurchaseQuery store item :
  ParseQuery (PurchaseQuery store item) = ItemParameters store item.
Proof.
  rewrite <-Encode_CreatePurchaseURL, ItemParameters_eq.
  apply ParseQuery_Encode_eq, ItemParameters_nonempty.
Qed.

End Payments.

(** [CreatePurchaseURL] and [SettleTransaction] refuse an amount that
    does not start with [USD] and a space, before anything is built,
    signed or sent, and only such an amount gets this error. *)
Theorem non_USD_amounts_are_refused now NewRequest Do DecodeSettle URLString
    store c item transactionId amount :
  (CreatePurchaseURL now NewRequest URLString store c item
   = ([], Ok ("", Some "AWS only supports USD prices"))
   ↔ ∀ rest, Price item ≠ "USD " +:+ rest)
  ∧ (SettleTransaction now NewRequest Do DecodeSettle store c transactionId
       amount
     = ([], Ok (Some "Cannot settle a non-USD transaction"))
     ↔ ∀ rest, amount ≠ "USD " +:+ rest).
Proof.
  split.
  - unfold CreatePurchaseURL.
    destruct (Strings.HasPrefix (Price item) "USD ") eqn:Hp; simpl negb;
      cbv iota.
    + apply HasPrefix_inv in Hp as [rest Hp]. split; [|by intros H; destruct (H rest)].
      cbv zeta. destruct (NewRequest _ _) as [err|req]; [done|].
      by destruct (sign now c purchaseSigningContext req).
    + split; [|done]. intros _ rest E.
      by rewrite E, HasPrefix_app in Hp.
  - unfold SettleTransaction.
    destruct (Strings.HasPrefix amount "USD ") eqn:Hp; simpl negb; cbv iota.
    + apply HasPrefix_inv in Hp as [rest ->].
      split; [|by intros H; destruct (H rest)].
      rewrite (sliceFrom_app rest "USD "
               : sliceFrom ("USD " +:+ rest) 4 = Ok rest). cbv zeta.
      destruct (NewRequest _ _) as [err|req]; [done|].
      destruct (SignRequest now c req) as [req'|]; [|done].
      destruct (Do req') as [err|body]; [done|].
      destruct (DecodeSettle body) as [err|response]; [done|].
      by destruct (tErrors response).
    + split; [|done]. intros _ rest E.
      by rewrite E, HasPrefix_app in Hp.
Qed.

(** For a price that starts with [USD] and a space, the query of the
    request of [CreatePurchaseURL] is
    [amount=..&cobrandingStyle=logo&description=..&immediateReturn=1&processImmediate=0&referenceId=..&returnURL=..],
    without [referenceId] when the reference of the item is empty, and
    parsing it gives the parameters of the item as they were given.  The
    call asks [http.NewRequest] for a GET of the pay pipeline of the
    sandbox or of production, according to the store, and this query; a
    failure [err] is returned as [Failed to build request: err] with
    nothing signed. *)
Theorem CreatePurchaseURL_request now NewRequest URLString store c item rest :
  Price item = "USD " +:+ rest →
  ParseQuery (PurchaseQuery store item) = ItemParameters store item
  ∧ (ItemParameters store item !! "referenceId"
     = if String.eqb (ReferenceId item) "" then None
       else Some [ReferenceId item])
  ∧ match NewRequest "GET"
            (PayPipelineHost store +:+ PurchaseQuery store item) with
    | inl err =>
        CreatePurchaseURL now NewRequest URLString store c item
        = ([], Ok ("", Some ("Failed to build request: " +:+ err)))
    | inr req =>
        ∃ req', sign now c purchaseSigningContext req = Ok req'
          ∧ CreatePurchaseURL now NewRequest URLString store c item
            = ([Signed req'], Ok (URLString (URL req'), None))
    end.
Proof.
  intros Hp. split; [apply ParseQuery_PurchaseQuery|]. split.
  { unfold ItemParameters.
    destruct (ReferenceId item); cbn [String.eqb]; by simplify_map_eq. }
  unfold CreatePurchaseURL. rewrite Hp, HasPrefix_app. simpl negb.
  cbv iota zeta. rewrite <-Hp, Encode_CreatePurchaseURL.
  fold (PayPipelineHost store).
  destruct (NewRequest _ _) as [err|req]; [done|].
  rewrite sign_purchase, getValues_purchase.
  unfold signatureValue, stringToSign. rewrite getValues_purchase.
  cbn [mbind result_bind]. by eexists.
Qed.

(** [CreatePurchaseURL_request] on a book for USD 12.50 without
    reference, in the sandbox. *)
Lemma CreatePurchaseURL_request_witness :
  PayPipelineHost exampleStore +:+ PurchaseQuery exampleStore exampleItem
  = "https://authorize.payments-sandbox.amazon.com/pba/paypipeline?amount=USD+12.50&cobrandingStyle=logo&description=A+book+%26+a+pen&immediateReturn=1&processImmediate=0&returnURL=https%3A%2F%2Fshop.example.com%2Fdone"
  ∧ ParseQuery (PurchaseQuery exampleStore exampleItem)
    = ItemParameters exampleStore exampleItem
  ∧ ItemParameters exampleStore exampleItem !! "referenceId" = None.
Proof.
  split; [vm_compute; reflexivity|].
  destruct (CreatePurchaseURL_request exampleTime queryNewRequest
              exampleURLString exampleStore exampleContext exampleItem
              "12.50" eq_refl) as (H1 & H2 & _).
  split; [exact H1|exact H2].
Defined.

(** When the request of [CreatePurchaseURL] could be built, with the
    query that was asked for, the call signs it with the purchase profile
    and sends nothing; it returns the URL of the signed request, whose
    method, host and path are the ones of the request and whose query
    has the parameters of the item as they were given, [accessKey],
    [signatureVersion], [signatureMethod] and [signature]. *)
Theorem CreatePurchaseURL_signed_url now NewRequest URLString store c item
    rest req :
  Price item = "USD " +:+ rest →
  NewRequest "GET" (PayPipelineHost store +:+ PurchaseQuery store item)
  = inr req →
  RawQuery (URL req) = PurchaseQuery store item →
  ∃ req' sig,
    CreatePurchaseURL now NewRequest URLString store c item
    = ([Signed req'], Ok (URLString (URL req'), None))
    ∧ signatureValue now c purchaseSigningContext req = Ok sig
    ∧ Method req' = Method req ∧ Host (URL req') = Host (URL req)
    ∧ Path (URL req') = Path (URL req)
    ∧ Query (URL req')
      = <["signature" := [sig]]>
          (<["signatureMethod" := ["HmacSHA256"]]>
             (<["signatureVersion" := ["2"]]>
                (<["accessKey" := [keyId c]]> (ItemParameters store item)))).
Proof.
  intros Hp HNew Hq.
  destruct (CreatePurchaseURL_request now NewRequest URLString store c item
              rest Hp) as (_ & _ & H).
  rewrite HNew in H. destruct H as (req' & Hs & ->).
  rewrite sign_purchase, getValues_purchase in Hs.
  unfold signatureValue, stringToSign in *.
  rewrite getValues_purchase in *. cbn [mbind result_bind] in *.
  injection Hs as <-. do 2 eexists. split; [reflexivity|].
  split; [reflexivity|]. do 3 (split; [reflexivity|]).
  unfold Query. cbn [URL RawQuery]. rewrite Hq, ParseQuery_PurchaseQuery.
  apply ParseQuery_Encode_eq. intros k. unfold Set_.
  repeat (rewrite lookup_insert; case_decide; [done|]).
  apply ItemParameters_nonempty.
Qed.

(** [CreatePurchaseURL_signed_url] on the book, in a world where
    [http.NewRequest] keeps the query. *)
Lemma CreatePurchaseURL_signed_url_witness :
  ∃ req' sig,
    CreatePurchaseURL exampleTime queryNewRequest exampleURLString
      exampleStore exampleContext exampleItem
    = ([Signed req'], Ok (exampleURLString (URL req'), None))
    ∧ Query (URL req') !! "description" = Some ["A book & a pen"]
    ∧ Query (URL req') !! "amount" = Some ["USD 12.50"]
    ∧ Query (URL req') !! "signature" = Some [sig].
Proof.
  destruct (CreatePurchaseURL_signed_url exampleTime queryNewRequest
              exampleURLString exampleStore exampleContext exampleItem
              "12.50" _ eq_refl eq_refl eq_refl)
    as (req' & sig & H & _ & _ & _ & _ & Hq).
  exists req', sig. split; [exact H|]. rewrite Hq.
  split; [vm_compute; reflexivity|]. split; [vm_compute; reflexivity|].
  apply lookup_insert_eq.
Defined.

(** The query of the request of [GetTransactionStatus] is
    [Action=GetTransactionStatus&TransactionId=id&Version=2008-09-17]
    with the identifier escaped, and parsing it gives these three
    parameters, the identifier as it was given.  The call asks
    [http.NewRequest] for a GET of the FPS host of the sandbox or of
    production, according to the store, and this query; a failure [err]
    is returned as [Failed to build request: err] with nothing signed or
    sent, and otherwise the request is signed with the default profile
    and sent. *)
Theorem GetTransactionStatus_request now NewRequest Do DecodeStatus store c
    transactionId :
  ParseQuery (StatusQuery transactionId)
  = {[ "Action" := ["GetTransactionStatus"];
       "TransactionId" := [transactionId]; "Version" := ["2008-09-17"] ]}
  ∧ match NewRequest "GET" (FPSHost store +:+ StatusQuery transactionId) with
    | inl err =>
        GetTransactionStatus now NewRequest Do DecodeStatus store c
          transactionId
        = ([], Ok (Some ("Failed to build request: " +:+ err)))
    | inr req =>
        ∃ req', SignRequest now c req = Ok req'
          ∧ (GetTransactionStatus now NewRequest Do DecodeStatus store c
               transactionId).1
            = [Signed req'; Sent req']
    end.
Proof.
  split.
  - unfold StatusQuery. rewrite <-Encode_GetTransactionStatus.
    rewrite ParseQuery_Encode_eq by no_empty_values. params_eq.
  - unfold GetTransactionStatus. cbv zeta.
    rewrite Encode_GetTransactionStatus.
    fold (StatusQuery transactionId). fold (FPSHost store).
    destruct (NewRequest _ _) as [err|req]; [done|].
    destruct (SignRequest_Ok now c req) as [req' Hs]. rewrite Hs.
    exists req'. split; [done|].
    destruct (Do req') as [err|b]; [done|].
    destruct (DecodeStatus b) as [err|response]; [done|].
    by destruct (negb _).
Qed.

(** [GetTransactionStatus] returns nil exactly when the request could be
    built, the exchange completed, the response could be decoded and its
    status code is [Success]. *)
Theorem GetTransactionStatus_nil_iff now NewRequest Do DecodeStatus store c
    transactionId :
  (GetTransactionStatus now NewRequest Do DecodeStatus store c
     transactionId).2 = Ok None
  ↔ ∃ req req' body response,
      NewRequest "GET" (FPSHost store +:+ StatusQuery transactionId) = inr req
      ∧ SignRequest now c req = Ok req' ∧ Do req' = inr body
      ∧ DecodeStatus body = inr response
      ∧ sStatusCode response = "Success".
Proof.
  unfold GetTransactionStatus. cbv zeta. rewrite Encode_GetTransactionStatus.
  fold (StatusQuery transactionId). fold (FPSHost store).
  destruct (NewRequest _ _) as [err|req] eqn:HNew.
  { split; [done|]. intros (? & ? & ? & ? & ? & _). same_exchange. }
  destruct (SignRequest_Ok now c req) as [req' Hs]. rewrite Hs.
  destruct (Do req') as [err|body] eqn:HDo.
  { split; [done|]. intros (? & ? & ? & ? & ? & ? & ? & _). same_exchange. }
  destruct (DecodeStatus body) as [err|response] eqn:HDe.
  { split; [done|]. intros (? & ? & ? & ? & ? & ? & ? & ? & _).
    same_exchange. }
  destruct (String.eqb_spec (sStatusCode response) "Success") as [E|E];
    simpl.
  - split; [|done]. intros _. by exists req, req', body, response.
  - split; [done|]. intros (? & ? & ? & ? & ? & ? & ? & ? & ?).
    same_exchange.
Qed.

(** For an amount [USD value], the query of the request of
    [SettleTransaction] is
    [Action=Settle&ReserveTransactionId=id&TransactionAmount.CurrencyCode=USD&TransactionAmount.Value=value&Version=2008-09-17]
    with the identifier and the value escaped, and parsing it gives these
    five parameters: the value is the amount without its first four
    bytes.  The call asks [http.NewRequest] for a GET of the FPS host of
    the sandbox or of production and this query; a failure [err] is
    returned as [Failed to build request: err] with nothing signed or
    sent, and otherwise the request is signed with the default profile
    and sent. *)
Theorem SettleTransaction_request now NewRequest Do DecodeSettle store c
    transactionId amount value :
  amount = "USD " +:+ value →
  ParseQuery (SettleQuery transactionId value)
  = {[ "Action" := ["Settle"]; "ReserveTransactionId" := [transactionId];
       "TransactionAmount.CurrencyCode" := ["USD"];
       "TransactionAmount.Value" := [value]; "Version" := ["2008-09-17"] ]}
  ∧ match NewRequest "GET"
            (FPSHost store +:+ SettleQuery transactionId value) with
    | inl err =>
        SettleTransaction now NewRequest Do DecodeSettle store c
          transactionId amount
        = ([], Ok (Some ("Failed to build request: " +:+ err)))
    | inr req =>
        ∃ req', SignRequest now c req = Ok req'
          ∧ (SettleTransaction now NewRequest Do DecodeSettle store c
               transactionId amount).1
            = [Signed req'; Sent req']
    end.
Proof.
  intros ->. split.
  - unfold SettleQuery. rewrite <-Encode_SettleTransaction.
    rewrite ParseQuery_Encode_eq by no_empty_values. params_eq.
  - unfold SettleTransaction. rewrite HasPrefix_app. simpl negb. cbv iota.
    rewrite (sliceFrom_app value "USD "
             : sliceFrom ("USD " +:+ value) 4 = Ok value). cbv zeta.
    rewrite Encode_SettleTransaction.
    fold (SettleQuery transactionId value). fold (FPSHost store).
    destruct (NewRequest _ _) as [err|req]; [done|].
    destruct (SignRequest_Ok now c req) as [req' Hs]. rewrite Hs.
    exists req'. split; [done|].
    destruct (Do req') as [err|b]; [done|].
    destruct (DecodeSettle b) as [err|response]; [done|].
    by destruct (tErrors response).
Qed.

(** [SettleTransaction_request] on USD 12.50 in the sandbox. *)
Lemma SettleTransaction_request_witness :
  FPSHost exampleStore +:+ SettleQuery "T-1" "12.50"
  = "https://fps.sandbox.amazonaws.com/?Action=Settle&ReserveTransactionId=T-1&TransactionAmount.CurrencyCode=USD&TransactionAmount.Value=12.50&Version=2008-09-17"
  ∧ ParseQuery (SettleQuery "T-1" "12.50") !! "TransactionAmount.Value"
    = Some ["12.50"]
  ∧ ∃ req', (SettleTransaction exampleTime queryNewRequest answerDo
               (fun _ => inr (mkSettleResponse "T-2" "Pending" []))
               exampleStore exampleContext "T-1" "USD 12.50").1
            = [Signed req'; Sent req'].
Proof.
  split; [vm_compute; reflexivity|].
  destruct (SettleTransaction_request exampleTime queryNewRequest answerDo
              (fun _ => inr (mkSettleResponse "T-2" "Pending" []))
              exampleStore exampleContext "T-1" "USD 12.50" "12.50" eq_refl)
    as [Hq (req' & _ & He)].
  split; [by rewrite Hq|]. by exists req'.
Defined.

(** [SettleTransaction] returns nil exactly when the amount starts with
    [USD] and a space, the request could be built, the exchange
    completed, the response could be decoded and it lists no error: the
    transaction status of the response is not read. *)
Theorem SettleTransaction_nil_iff now NewRequest Do DecodeSettle store c
    transactionId amount :
  (SettleTransaction now NewRequest Do DecodeSettle store c transactionId
     amount).2 = Ok None
  ↔ ∃ value req req' body response,
      amount = "USD " +:+ value
      ∧ NewRequest "GET" (FPSHost store +:+ SettleQuery transactionId value)
        = inr req
      ∧ SignRequest now c req = Ok req' ∧ Do req' = inr body
      ∧ DecodeSettle body = inr response
      ∧ tErrors response = [].
Proof.
  unfold SettleTransaction.
  destruct (Strings.HasPrefix amount "USD ") eqn:Hp; simpl negb; cbv iota.
  2:{ split; [done|]. intros (value & ? & ? & ? & ? & -> & _).
      by rewrite HasPrefix_app in Hp. }
  apply HasPrefix_inv in Hp as [value ->].
  rewrite (sliceFrom_app value "USD "
           : sliceFrom ("USD " +:+ value) 4 = Ok value). cbv zeta.
  rewrite Encode_SettleTransaction.
  fold (SettleQuery transactionId value). fold (FPSHost store).
  assert (∀ value', "USD " +:+ value = "USD " +:+ value' → value' = value)
    as Hinj by (by intros ? [=]).
  destruct (NewRequest _ _) as [err|req] eqn:HNew.
  { split; [done|]. intros (? & ? & ? & ? & ? & ->%Hinj & ? & _).
    same_exchange. }
  destruct (SignRequest_Ok now c req) as [req' Hs]. rewrite Hs.
  destruct (Do req') as [err|body] eqn:HDo.
  { split; [done|]. intros (? & ? & ? & ? & ? & ->%Hinj & ? & ? & ? & _).
    same_exchange. }
  destruct (DecodeSettle body) as [err|response] eqn:HDe.
  { split; [done|].
    intros (? & ? & ? & ? & ? & ->%Hinj & ? & ? & ? & ? & _).
    same_exchange. }
  destruct (tErrors response) as [|e es] eqn:HE; simpl.
  - split; [|done]. intros _. by exists value, req, req', body, response.
  - split; [done|].
    intros (? & ? & ? & ? & ? & ->%Hinj & ? & ? & ? & ? & ?).
    same_exchange. congruence.
Qed.

(** The query of the request of [VerifyPaymentParams] is
    [Action=VerifySignature&HttpParameters=..&UrlEndPoint=..&Version=2008-09-17]:
    parsing it gives these four parameters, with the encoding of [v] as
    [HttpParameters] and the return URL of the store as [UrlEndPoint],
    and parsing [HttpParameters] again gives [v], when every key of [v]
    has a value.  The call asks [http.NewRequest] for a GET of the FPS
    host of the sandbox or of production and this query; a failure [err]
    is returned as [Failed to build request: err] with nothing signed or
    sent, and otherwise the request is signed with the default profile
    and sent. *)
Theorem VerifyPaymentParams_request now NewRequest Do DecodeVerify store c
    (v : Values) :
  (∀ k, v !! k ≠ Some []) →
  ParseQuery (VerifyQuery store v)
  = {[ "Action" := ["VerifySignature"]; "HttpParameters" := [Encode v];
       "UrlEndPoint" := [ReturnURL store]; "Version" := ["2008-09-17"] ]}
  ∧ ParseQuery (Encode v) = v
  ∧ match NewRequest "GET" (FPSHost store +:+ VerifyQuery store v) with
    | inl err =>
        VerifyPaymentParams now NewRequest Do DecodeVerify store c v
        = ([], Ok (Some ("Failed to build request: " +:+ err)))
    | inr req =>
        ∃ req', SignRequest now c req = Ok req'
          ∧ (VerifyPaymentParams now NewRequest Do DecodeVerify store c v).1
            = [Signed req'; Sent req']
    end.
Proof.
  intros Hv. split; [|split; [by apply ParseQuery_Encode_eq|]].
  - unfold VerifyQuery. rewrite <-Encode_VerifyPaymentParams.
    rewrite ParseQuery_Encode_eq by no_empty_values. params_eq.
  - unfold VerifyPaymentParams. cbv zeta.
    rewrite Encode_VerifyPaymentParams.
    fold (VerifyQuery store v). fold (FPSHost store).
    destruct (NewRequest _ _) as [err|req]; [done|].
    destruct (SignRequest_Ok now c req) as [req' Hs]. rewrite Hs.
    exists req'. split; [done|].
    destruct (Do req') as [err|b]; [done|].
    destruct (DecodeVerify b) as [err|response]; [done|].
    destruct (vErrors response); [|done]. by destruct (negb _).
Qed.

(** [VerifyPaymentParams_request] on the parameters of a signed request. *)
Lemma VerifyPaymentParams_request_witness :
  ParseQuery (VerifyQuery exampleStore (Query (URL signedRequest)))
    !! "HttpParameters"
  = Some [RawQuery (URL signedRequest)]
  ∧ ParseQuery (Encode (Query (URL signedRequest)))
    = Query (URL signedRequest).
Proof.
  destruct (VerifyPaymentParams_request exampleTime queryNewRequest answerDo
              (fun _ => inr (mkVerifyResponse "Success" []))
              exampleStore exampleContext (Query (URL signedRequest))
              (ParseQuery_nonempty _)) as (H1 & H2 & _).
  split; [|exact H2]. rewrite H1. vm_compute. reflexivity.
Defined.

(** [VerifyPaymentParams] returns nil exactly when the request could be
    built, the exchange completed, the response could be decoded, it
    lists no error and its verification status is [Success]. *)
Theorem VerifyPaymentParams_nil_iff now NewRequest Do DecodeVerify store c
    (v : Values) :
  (VerifyPaymentParams now NewRequest Do DecodeVerify store c v).2 = Ok None
  ↔ ∃ req req' body response,
      NewRequest "GET" (FPSHost store +:+ VerifyQuery store v) = inr req
      ∧ SignRequest now c req = Ok req' ∧ Do req' = inr body
      ∧ DecodeVerify body = inr response
      ∧ vErrors response = []
      ∧ vVerificationStatus response = "Success".
Proof.
  unfold VerifyPaymentParams. cbv zeta. rewrite Encode_VerifyPaymentParams.
  fold (VerifyQuery store v). fold (FPSHost store).
  destruct (NewRequest _ _) as [err|req] eqn:HNew.
  { split; [done|]. intros (? & ? & ? & ? & ? & _). same_exchange. }
  destruct (SignRequest_Ok now c req) as [req' Hs]. rewrite Hs.
  destruct (Do req') as [err|body] eqn:HDo.
  { split; [done|]. intros (? & ? & ? & ? & ? & ? & ? & _). same_exchange. }
  destruct (DecodeVerify body) as [err|response] eqn:HDe.
  { split; [done|]. intros (? & ? & ? & ? & ? & ? & ? & ? & _).
    same_exchange. }
  destruct (vErrors response) as [|e es] eqn:HE.
  2:{ split; [done|]. intros (? & ? & ? & ? & ? & ? & ? & ? & ? & _).
      same_exchange. congruence. }
  destruct (String.eqb_spec (vVerificationStatus response) "Success")
    as [E|E]; simpl.
  - split; [|done]. intros _. by exists req, req', body, response.
  - split; [done|]. intros (? & ? & ? & ? & ? & ? & ? & ? & ? & ?).
    same_exchange.
Qed.

(** No service call panics, in any world and on any input: the profile
    that they sign with is one of the two, and [SettleTransaction] slices
    the amount after it has tested its prefix. *)
Theorem service_calls_never_panic now away NewRequest Do Decode
    DecodePublish DecodeStatus DecodeSettle DecodeVerify URLString
    q t store c max wait receiptHandle body item transactionId amount
    (v : Values) msg :
  (ReceiveMessages now away NewRequest Do Decode q c max wait).2 ≠ Panic msg
  ∧ (DeleteMessage now NewRequest Do q c receiptHandle).2 ≠ Panic msg
  ∧ (Publish now NewRequest Do DecodePublish t c body).2 ≠ Panic msg
  ∧ (CreatePurchaseURL now NewRequest URLString store c item).2 ≠ Panic msg
  ∧ (GetTransactionStatus now NewRequest Do DecodeStatus store c
       transactionId).2 ≠ Panic msg
  ∧ (SettleTransaction now NewRequest Do DecodeSettle store c transactionId
       amount).2 ≠ Panic msg
  ∧ (VerifyPaymentParams now NewRequest Do DecodeVerify store c v).2
    ≠ Panic msg.
Proof.
  repeat split.
  - unfold ReceiveMessages. destruct (_ || _); [done|].
    destruct (_ || _); [done|]. cbv zeta.
    destruct (NewRequest _ _) as [err|req]; [done|].
    destruct (SignRequest_Ok now c req) as [req' ->].
    destruct (Do req') as [err|b]; [done|]. by destruct (Decode b).
  - unfold DeleteMessage. cbv zeta.
    destruct (NewRequest _ _) as [err|req]; [done|].
    destruct (SignRequest_Ok now c req) as [req' ->]. by destruct (Do req').
  - unfold Publish. cbv zeta.
    destruct (NewRequest _ _) as [err|req]; [done|].
    destruct (SignRequest_Ok now c req) as [req' ->].
    destruct (Do req') as [err|b]; [done|]. by destruct (DecodePublish b).
  - unfold CreatePurchaseURL. destruct (negb _); [done|]. cbv zeta.
    destruct (NewRequest _ _) as [err|req]; [done|].
    by rewrite sign_purchase, getValues_purchase.
  - unfold GetTransactionStatus. cbv zeta.
    destruct (NewRequest _ _) as [err|req]; [done|].
    destruct (SignRequest_Ok now c req) as [req' ->].
    destruct (Do req') as [err|b]; [done|].
    destruct (DecodeStatus b) as [err|response]; [done|].
    by destruct (negb _).
  - unfold SettleTransaction.
    destruct (Strings.HasPrefix amount "USD ") eqn:Hp; [|done].
    apply HasPrefix_inv in Hp as [value ->]. simpl negb. cbv iota.
    rewrite (sliceFrom_app value "USD "
             : sliceFrom ("USD " +:+ value) 4 = Ok value). cbv zeta.
    destruct (NewRequest _ _) as [err|req]; [done|].
    destruct (SignRequest_Ok now c req) as [req' ->].
    destruct (Do req') as [err|b]; [done|].
    destruct (DecodeSettle b) as [err|response]; [done|].
    by destruct (tErrors response).
  - unfold VerifyPaymentParams. cbv zeta.
    destruct (NewRequest _ _) as [err|req]; [done|].
    destruct (SignRequest_Ok now c req) as [req' ->].
    destruct (Do req') as [err|b]; [done|].
    destruct (DecodeVerify b) as [err|response]; [done|].
    destruct (vErrors response); [|done]. by destruct (negb _).
Qed.

(** [ReceiveMessages] returns messages, with a nil error, exactly when
    [max] is from 0 to 10 and [wait] from 0 to 20 whole seconds, the
    request could be built, the exchange completed and the response could
    be decoded: the messages are then the ones of the response, in its
    order, each with its receipt handle and its body.  With an error it
    returns no message. *)
Theorem ReceiveMessages_result now away NewRequest Do Decode q c max wait :
  (∀ messages,
     (ReceiveMessages now away NewRequest Do Decode q c max wait).2
     = Ok (messages, None)
     ↔ 0 ≤ Z.quot wait Time.Second ≤ 20 ∧ 0 ≤ max ≤ 10
       ∧ ∃ req req' body message,
           NewRequest "GET"
             (ReceiveMessagesURL q max (Z.quot wait Time.Second)) = inr req
           ∧ SignRequest now c req = Ok req' ∧ Do req' = inr body
           ∧ Decode body = inr message
           ∧ messages
             = (fun msg => {| ReceiptHandle := rReceiptHandle msg;
                              Body := rBody msg |}) <$> message)
  ∧ (∀ messages err,
       (ReceiveMessages now away NewRequest Do Decode q c max wait).2
       = Ok (messages, Some err) → messages = []).
Proof.
  unfold ReceiveMessages.
  destruct (intSeconds_bounds away wait) as [-> ->].
  destruct (Z.ltb_spec (Z.quot wait Time.Second) 0).
  { split; [|by intros ?? [= <- _]]. intros ?. split; [done|]. lia. }
  destruct (Z.ltb_spec 20 (Z.quot wait Time.Second)).
  { split; [|by intros ?? [= <- _]]. intros ?. split; [done|]. lia. }
  destruct (Z.ltb_spec max 0).
  { split; [|by intros ?? [= <- _]]. intros ?. split; [done|]. lia. }
  destruct (Z.ltb_spec 10 max).
  { split; [|by intros ?? [= <- _]]. intros ?. split; [done|]. lia. }
  simpl orb. cbv iota zeta.
  rewrite intSeconds_small by (rewrite Z.abs_eq; lia).
  rewrite Encode_ReceiveMessages.
  change (url q +:+ "/?" +:+ _)
    with (ReceiveMessagesURL q max (Z.quot wait Time.Second)).
  destruct (NewRequest _ _) as [err|req] eqn:HNew.
  { split; [|by intros ?? [= <- _]]. intros ?. split; [done|].
    intros (_ & _ & ? & ? & ? & ? & ? & _). same_exchange. }
  destruct (SignRequest_Ok now c req) as [req' Hs]. rewrite Hs.
  destruct (Do req') as [err|body] eqn:HDo.
  { split; [|by intros ?? [= <- _]]. intros ?. split; [done|].
    intros (_ & _ & ? & ? & ? & ? & ? & ? & ? & _). same_exchange. }
  destruct (Decode body) as [err|message] eqn:HDe.
  { split; [|by intros ?? [= <- _]]. intros ?. split; [done|].
    intros (_ & _ & ? & ? & ? & ? & ? & ? & ? & ? & _). same_exchange. }
  split; [|done]. intros messages. simpl. split.
  - intros [= <-]. split; [lia|]. split; [lia|].
    by exists req, req', body, message.
  - intros (_ & _ & ? & ? & ? & ? & ? & ? & ? & ? & ->). same_exchange.
Qed.

(** ** More on the signer, continued *)

(** [sign] panics exactly when the profile is neither the default one nor
    the one of purchases, and then with [Unknown signing context]. *)
Theorem sign_panics_iff_unknown now c sc r :
  (sign now c sc r = Panic "Unknown signing context"
   ↔ sc ≠ defaultHTTPSigningContext ∧ sc ≠ purchaseSigningContext)
  ∧ (∀ msg, sign now c sc r = Panic msg → msg = "Unknown signing context").
Proof.
  destruct (decide (sc = defaultHTTPSigningContext)) as [->|H0];
    [|destruct (decide (sc = purchaseSigningContext)) as [->|H1]].
  - split; [|done]. split; [done|]. by intros [? _].
  - split; [|done]. split; [done|]. by intros [_ ?].
  - unfold sign. rewrite getValues_unknown by done.
    split; [done|]. by intros ? [= <-].
Qed.

(** [SignRequest] stamps the request with the clock: after the call the
    query has one [Timestamp], the time of the call in RFC 3339 form,
    whatever [Timestamp] the request had. *)
Theorem SignRequest_stamps_clock now c r :
  ∃ r', SignRequest now c r = Ok r'
    ∧ Query (URL r') !! "Timestamp" = Some [Time.FormatRFC3339 now].
Proof.
  eexists. split; [apply sign_default|].
  unfold Query. cbn [URL RawQuery]. by rewrite !Query_Encode_Set.
Qed.

(** The query string of a signed request is in the form of [Encode]:
    encoding its parameters again gives the same string, so that its keys
    are in increasing order and escaped. *)
Theorem signed_query_is_encoded now c sc r r' :
  sign now c sc r = Ok r' → Encode (Query (URL r')) = RawQuery (URL r').
Proof.
  intros Hs.
  assert (∀ v, (∀ k, v !! k ≠ Some []) →
               Encode (ParseQuery (Encode v)) = Encode v) as Hv.
  { intros v Hv. by rewrite ParseQuery_Encode_eq. }
  assert (∀ v k x, (∀ k, v !! k ≠ Some []) →
                   ∀ k', Set_ v k x !! k' ≠ Some []) as Hset.
  { intros v k x Hne k'. unfold Set_. rewrite lookup_insert.
    case_decide; [done|apply Hne]. }
  destruct (decide (sc = defaultHTTPSigningContext)) as [->|H0];
    [|destruct (decide (sc = purchaseSigningContext)) as [->|H1]].
  - rewrite sign_default, getValues_default in Hs.
    unfold signatureValue, stringToSign in Hs.
    rewrite getValues_default in Hs. cbn [mbind result_bind] in Hs.
    injection Hs as <-. unfold Query at 1. cbn [URL RawQuery].
    apply Hv. repeat apply Hset. apply ParseQuery_nonempty.
  - rewrite sign_purchase, getValues_purchase in Hs.
    unfold signatureValue, stringToSign in Hs.
    rewrite getValues_purchase in Hs. cbn [mbind result_bind] in Hs.
    injection Hs as <-. unfold Query at 1. cbn [URL RawQuery].
    apply Hv. repeat apply Hset. apply ParseQuery_nonempty.
  - unfold sign in Hs. by rewrite getValues_unknown in Hs.
Qed.

(** [signed_query_is_encoded] on [exampleRequest]. *)
Lemma signed_query_is_encoded_witness :
  Encode (Query (URL signedRequest)) = RawQuery (URL signedRequest).
Proof.
  apply (signed_query_is_encoded exampleTime exampleContext
           defaultHTTPSigningContext exampleRequest signedRequest).
  vm_compute. reflexivity.
Defined.

(** Signing a signed request again signs the first signature with it: the
    signature field that the first call wrote is one of the parameters of
    the second string to sign, so that the second signature is not the
    one of the request signed afresh. *)
Theorem resign_signs_old_signature now now' c sc r r1 sig :
  sc = defaultHTTPSigningContext ∨ sc = purchaseSigningContext →
  sign now c sc r = Ok r1 → signatureValue now c sc r = Ok sig →
  ∃ params, getValues now' sc c r1 = Ok params
    ∧ stringToSign now' c sc r1 = Ok (signString r1 (queryString params))
    ∧ signatureField sc +:+ "=" +:+ signedText sig
        ∈ Strings.Split (queryString params) "&".
Proof.
  intros Hsc Hs Hsig.
  assert (index (Query (URL r1)) (signatureField sc) = [sig]) as Hi.
  { unfold index, Query. destruct Hsc as [-> | ->].
    - rewrite sign_default, Hsig, getValues_default in Hs.
      cbn [mbind result_bind] in Hs. injection Hs as <-.
      cbn [URL RawQuery]. by rewrite Query_Encode_Set.
    - rewrite sign_purchase, Hsig, getValues_purchase in Hs.
      cbn [mbind result_bind] in Hs. injection Hs as <-.
      cbn [URL RawQuery]. by rewrite Query_Encode_Set. }
  destruct Hsc as [-> | ->]; eexists; (split; [reflexivity|]);
    (split; [reflexivity|]).
  - change (signatureField defaultHTTPSigningContext)
      with (signedText "Signature") at 1.
    apply signed_pair_in_queryString.
    rewrite !index_Set_ne by done.
    change "Signature" with (signatureField defaultHTTPSigningContext).
    rewrite Hi. by left.
  - change (signatureField purchaseSigningContext)
      with (signedText "signature") at 1.
    apply signed_pair_in_queryString.
    rewrite !index_Set_ne by done.
    change "signature" with (signatureField purchaseSigningContext).
    rewrite Hi. by left.
Qed.

(** [resign_signs_old_signature] on [exampleRequest], signed again one
    second later. *)
Lemma resign_signs_old_signature_witness :
  ∃ params,
    getValues laterTime defaultHTTPSigningContext exampleContext signedRequest
    = Ok params
    ∧ stringToSign laterTime exampleContext defaultHTTPSigningContext
        signedRequest
      = Ok (signString signedRequest (queryString params))
    ∧ "Signature=rnT6hCW8rfh15Z3q9OOdPsDO16Zql336zSodfjXtdXc%3D"
        ∈ Strings.Split (queryString params) "&".
Proof.
  apply (resign_signs_old_signature exampleTime laterTime exampleContext
           defaultHTTPSigningContext exampleRequest signedRequest
           "rnT6hCW8rfh15Z3q9OOdPsDO16Zql336zSodfjXtdXc=").
  - left. reflexivity.
  - vm_compute. reflexivity.
  - vm_compute. reflexivity.
Defined.
